(** * Energy-conservation page: the physics core of [script.js]

    A point mass slides along the parabola [y = trackScale * x^2].  The
    script keeps one module-level [state] object plus a few globals
    ([width], [height], [simRunning], [dragging], [lastTime]) and mutates
    them from the animation callback and from the input handlers.

    The embedding threads that store explicitly: every handler of the
    script is a function [World -> World].  JavaScript numbers are read
    as real numbers (exact arithmetic on finite values), so [Math.sqrt]
    is [sqrt], [Math.max] is [Rmax] and the tests [a > b], [a < b] and
    [!a] are decided on [R].  The canvas drawing done by [draw] writes
    nothing that the script reads back, so the handlers only log the
    call; what it sends to the canvas is modelled on its own as a list
    of operations. *)

From Stdlib Require Import Reals Lra Lia Bool List ZArith String.
Import ListNotations.
Open Scope R_scope.

(** ** Tests on numbers *)

(** [a > b] *)
Definition gtb (a b : R) : bool := if Rlt_dec b a then true else false.

(** [a < b] *)
Definition ltb (a b : R) : bool := if Rlt_dec a b then true else false.

(** Truthiness of a number: [!a] holds exactly for zero. *)
Definition truthy (a : R) : bool := if Req_dec_T a 0 then false else true.

Definition Math_hypot (a b : R) : R := sqrt (a * a + b * b).

(** [Math.round]: the nearest integer, halves going up. *)
Definition Math_round (a : R) : Z := Int_part (a + 0.5).

(** ** The store *)

(** The [state] object (script.js, lines 27-38). *)
Record State : Type := mkState {
  x : R;
  y : R;
  v : R;
  mass : R;
  gravity : R;
  friction : R;
  thermalEnergy : R;
  initialTotalEnergy : R;
  trackScale : R;
  pixelsPerMeter : R
}.

Definition set_x (a : R) (s : State) : State :=
  mkState a (y s) (v s) (mass s) (gravity s) (friction s)
          (thermalEnergy s) (initialTotalEnergy s) (trackScale s) (pixelsPerMeter s).

Definition set_y (a : R) (s : State) : State :=
  mkState (x s) a (v s) (mass s) (gravity s) (friction s)
          (thermalEnergy s) (initialTotalEnergy s) (trackScale s) (pixelsPerMeter s).

Definition set_v (a : R) (s : State) : State :=
  mkState (x s) (y s) a (mass s) (gravity s) (friction s)
          (thermalEnergy s) (initialTotalEnergy s) (trackScale s) (pixelsPerMeter s).

Definition set_gravity (a : R) (s : State) : State :=
  mkState (x s) (y s) (v s) (mass s) a (friction s)
          (thermalEnergy s) (initialTotalEnergy s) (trackScale s) (pixelsPerMeter s).

Definition set_friction (a : R) (s : State) : State :=
  mkState (x s) (y s) (v s) (mass s) (gravity s) a
          (thermalEnergy s) (initialTotalEnergy s) (trackScale s) (pixelsPerMeter s).

Definition set_thermalEnergy (a : R) (s : State) : State :=
  mkState (x s) (y s) (v s) (mass s) (gravity s) (friction s)
          a (initialTotalEnergy s) (trackScale s) (pixelsPerMeter s).

Definition set_initialTotalEnergy (a : R) (s : State) : State :=
  mkState (x s) (y s) (v s) (mass s) (gravity s) (friction s)
          (thermalEnergy s) a (trackScale s) (pixelsPerMeter s).

(** The object literal the script starts from. *)
Definition state_literal : State :=
  mkState 0 0 0 1 9.8 0.0 0 0 0.005 100.

(** The part of the page the core reads (three controls) and writes
    (button label, overlay opacity, the four bars in percent and the
    four read-outs, the latter as the integer printed before the unit).
    The texts next to the two sliders and the visibility of the friction
    slider are written by the handlers and never read; they are left
    out. *)
Record Dom : Type := mkDom {
  toggleFriction_checked : bool;
  sliderFriction_value : R;
  sliderGravity_value : R;
  btnStartPause_textContent : string;
  overlayInstruction_opacity : R;
  barPotential_width : R;
  barKinetic_width : R;
  barThermal_width : R;
  barTotal_width : R;
  valPotential_textContent : Z;
  valKinetic_textContent : Z;
  valThermal_textContent : Z;
  valTotal_textContent : Z
}.

Definition set_toggleFriction_checked (b : bool) (d : Dom) : Dom :=
  mkDom b (sliderFriction_value d) (sliderGravity_value d)
        (btnStartPause_textContent d) (overlayInstruction_opacity d)
        (barPotential_width d) (barKinetic_width d) (barThermal_width d) (barTotal_width d)
        (valPotential_textContent d) (valKinetic_textContent d)
        (valThermal_textContent d) (valTotal_textContent d).

Definition set_sliderFriction_value (a : R) (d : Dom) : Dom :=
  mkDom (toggleFriction_checked d) a (sliderGravity_value d)
        (btnStartPause_textContent d) (overlayInstruction_opacity d)
        (barPotential_width d) (barKinetic_width d) (barThermal_width d) (barTotal_width d)
        (valPotential_textContent d) (valKinetic_textContent d)
        (valThermal_textContent d) (valTotal_textContent d).

Definition set_sliderGravity_value (a : R) (d : Dom) : Dom :=
  mkDom (toggleFriction_checked d) (sliderFriction_value d) a
        (btnStartPause_textContent d) (overlayInstruction_opacity d)
        (barPotential_width d) (barKinetic_width d) (barThermal_width d) (barTotal_width d)
        (valPotential_textContent d) (valKinetic_textContent d)
        (valThermal_textContent d) (valTotal_textContent d).

Definition set_btnStartPause_textContent (t : string) (d : Dom) : Dom :=
  mkDom (toggleFriction_checked d) (sliderFriction_value d) (sliderGravity_value d)
        t (overlayInstruction_opacity d)
        (barPotential_width d) (barKinetic_width d) (barThermal_width d) (barTotal_width d)
        (valPotential_textContent d) (valKinetic_textContent d)
        (valThermal_textContent d) (valTotal_textContent d).

Definition set_overlayInstruction_opacity (a : R) (d : Dom) : Dom :=
  mkDom (toggleFriction_checked d) (sliderFriction_value d) (sliderGravity_value d)
        (btnStartPause_textContent d) a
        (barPotential_width d) (barKinetic_width d) (barThermal_width d) (barTotal_width d)
        (valPotential_textContent d) (valKinetic_textContent d)
        (valThermal_textContent d) (valTotal_textContent d).

(** The module-level variables together with [state] and the page. *)
Record World : Type := mkWorld {
  state : State;
  width : R;
  height : R;
  simRunning : bool;
  dragging : bool;
  lastTime : R;
  dom : Dom
}.

Definition set_state (s : State) (w : World) : World :=
  mkWorld s (width w) (height w) (simRunning w) (dragging w) (lastTime w) (dom w).

Definition set_size (cw ch : R) (w : World) : World :=
  mkWorld (state w) cw ch (simRunning w) (dragging w) (lastTime w) (dom w).

Definition set_simRunning (b : bool) (w : World) : World :=
  mkWorld (state w) (width w) (height w) b (dragging w) (lastTime w) (dom w).

Definition set_dragging (b : bool) (w : World) : World :=
  mkWorld (state w) (width w) (height w) (simRunning w) b (lastTime w) (dom w).

Definition set_lastTime (t : R) (w : World) : World :=
  mkWorld (state w) (width w) (height w) (simRunning w) (dragging w) t (dom w).

Definition set_dom (d : Dom) (w : World) : World :=
  mkWorld (state w) (width w) (height w) (simRunning w) (dragging w) (lastTime w) d.

(** ** Track and integrator *)

(** [updatePositionFromX] (lines 56-58). *)
Definition updatePositionFromX (s : State) : State :=
  set_y (trackScale s * x s * x s) s.

(** [updatePhysics(dt)] (lines 93-124): one sub-step. *)
Definition updatePhysics (dt : R) (s : State) : State :=
  let slope := 2 * trackScale s * x s in
  let g := gravity s * 20 in
  let sinTheta := slope / sqrt (1 + slope * slope) in
  let a_t := - g * sinTheta in
  let a_t :=
    if gtb (friction s) 0
    then (let frictionForce := - friction s * v s in a_t + frictionForce)
    else a_t in
  let s1 := set_v (v s + a_t * dt) s in
  let cosTheta := 1 / sqrt (1 + slope * slope) in
  let s2 := set_x (x s1 + v s1 * cosTheta * dt) s1 in
  updatePositionFromX s2.

(** ** Energy ledger *)

(** The values [updateCharts] computes before it touches the page. *)
Record EnergyReport : Type := mkReport {
  pe : R;
  ke : R;
  thermal : R;
  total : R;
  maxE : R
}.

Definition scaleE : R := 0.0005.

Definition potentialEnergy (s : State) : R :=
  mass s * (gravity s * 20) * y s * scaleE.

Definition kineticEnergy (s : State) : R :=
  0.5 * mass s * v s * v s * scaleE.

(** The guard of the lazy capture (line 169). *)
Definition lazyCaptureFires (s : State) : bool :=
  negb (truthy (initialTotalEnergy s))
  && gtb (potentialEnergy s + kineticEnergy s) 0.

(** Lines 161-192 of [updateCharts]: the baseline bookkeeping on [state]
    and the numbers shown.  [isDragging] is the global [dragging]. *)
Definition ledger (isDragging : bool) (s : State) : State * EnergyReport :=
  let pe := potentialEnergy s in
  let ke := kineticEnergy s in
  let s1 := if lazyCaptureFires s then set_initialTotalEnergy (pe + ke) s else s in
  let s2 :=
    if isDragging
    then set_thermalEnergy 0 (set_initialTotalEnergy (pe + ke) s1)
    else s1 in
  let thermal :=
    if truthy (initialTotalEnergy s2)
    then (let thermal := initialTotalEnergy s2 - (pe + ke) in
          if ltb thermal 0 then 0 else thermal)
    else 0 in
  let total := pe + ke + thermal in
  let maxE := Rmax total 10 in
  (s2, mkReport pe ke thermal total maxE).

(** Lines 194-203: the bars (in percent) and the rounded read-outs. *)
Definition render (r : EnergyReport) (d : Dom) : Dom :=
  mkDom (toggleFriction_checked d) (sliderFriction_value d) (sliderGravity_value d)
        (btnStartPause_textContent d) (overlayInstruction_opacity d)
        (pe r / maxE r * 100) (ke r / maxE r * 100) (thermal r / maxE r * 100) 100
        (Math_round (pe r)) (Math_round (ke r))
        (Math_round (thermal r)) (Math_round (total r)).

(** [updateCharts] (lines 160-204). *)
Definition updateCharts (w : World) : World :=
  let '(s, r) := ledger (dragging w) (state w) in
  set_dom (render r (dom w)) (set_state s w).

(** The report the page shows for a world. *)
Definition report (w : World) : EnergyReport :=
  snd (ledger (dragging w) (state w)).

(** ** Reset, resize and the frame loop *)

(** [resetSimulation] (lines 41-54).  The two sliders are range inputs,
    so [parseFloat] of their value is the number they hold. *)
Definition resetSimulation (w : World) : World :=
  let s := state w in
  let s := set_x (-100) s in
  let s := set_v 0 s in
  let s := set_thermalEnergy 0 s in
  let s := set_initialTotalEnergy 0 s in
  let s := set_friction
             (if toggleFriction_checked (dom w)
              then sliderFriction_value (dom w) else 0) s in
  let s := set_gravity (sliderGravity_value (dom w)) s in
  let s := updatePositionFromX s in
  let w := set_simRunning false (set_state s w) in
  let w := set_dom (set_btnStartPause_textContent "Start" (dom w)) w in
  let w := set_dom (set_overlayInstruction_opacity 1 (dom w)) w in
  updateCharts w.

(** [resize] (lines 61-67); the arguments are the parent's client size. *)
Definition resize (clientWidth clientHeight : R) (w : World) : World :=
  set_size clientWidth clientHeight w.

(** What one run of [loop] calls, in order. *)
Inductive Call : Type :=
  | CallUpdatePhysics (dt : R)
  | CallDraw
  | CallUpdateCharts
  | CallRequestAnimationFrame.

(** The [for] loop of lines 83-85, by the number of iterations left. *)
Fixpoint subStepLoop (remaining : nat) (subDt : R) (s : State) : State * list Call :=
  match remaining with
  | O => (s, [])
  | S n =>
      let '(s', calls) := subStepLoop n subDt (updatePhysics subDt s) in
      (s', CallUpdatePhysics subDt :: calls)
  end.

(** Lines 73-77: the elapsed time of the frame in seconds, capped. *)
Definition frameDt (timestamp : R) (w : World) : R :=
  let lastTime0 := if truthy (lastTime w) then lastTime w else timestamp in
  let dt := (timestamp - lastTime0) / 1000 in
  if gtb dt 0.1 then 0.1 else dt.

(** [loop(timestamp)] (lines 72-91), with the calls it makes. *)
Definition loop (timestamp : R) (w : World) : World * list Call :=
  let dt := frameDt timestamp w in
  let w := set_lastTime timestamp w in
  let '(s, physics) :=
    if simRunning w && negb (dragging w)
    then (let subSteps := 10%nat in
          let subDt := dt / INR subSteps in
          subStepLoop subSteps subDt (state w))
    else (state w, []) in
  let w := set_state s w in
  (updateCharts w,
   physics ++ [CallDraw; CallUpdateCharts; CallRequestAnimationFrame]).

(** ** Pointer interaction *)

Record Touch : Type := mkTouch { touch_clientX : R; touch_clientY : R }.

(** A mouse event, or a touch event with its first touch point split
    off ([touchstart] and [touchmove] always carry one). *)
Inductive PointerEvent : Type :=
  | MouseEvent (clientX clientY : R)
  | TouchEvent (first : Touch) (others : list Touch).

Definition clientX_of (e : PointerEvent) : R :=
  match e with
  | MouseEvent cx _ => cx
  | TouchEvent t _ => touch_clientX t
  end.

Definition clientY_of (e : PointerEvent) : R :=
  match e with
  | MouseEvent _ cy => cy
  | TouchEvent t _ => touch_clientY t
  end.

(** The corner of [canvas.getBoundingClientRect()]. *)
Record Rect : Type := mkRect { rect_left : R; rect_top : R }.

(** Distance from the pointer to the drawn ball (lines 215-227). *)
Definition grabDistance (e : PointerEvent) (rect : Rect) (w : World) : R :=
  let mouseX := clientX_of e - rect_left rect in
  let mouseY := clientY_of e - rect_top rect in
  let centerX := width w / 2 in
  let bottomY := height w - 50 in
  let ballX := centerX + x (state w) in
  let ballY := bottomY - y (state w) in
  Math_hypot (mouseX - ballX) (mouseY - ballY).

(** [startDrag] (lines 214-235). *)
Definition startDrag (e : PointerEvent) (rect : Rect) (w : World) : World :=
  let dist := grabDistance e rect w in
  if ltb dist 40 then
    let w := set_dragging true w in
    let w := set_simRunning false w in
    let w := set_dom (set_btnStartPause_textContent "Start" (dom w)) w in
    let w := set_state (set_v 0 (state w)) w in
    set_dom (set_overlayInstruction_opacity 0 (dom w)) w
  else w.

(** [drag] (lines 237-255). *)
Definition drag (e : PointerEvent) (rect : Rect) (w : World) : World :=
  if negb (dragging w) then w else
  let mouseX := clientX_of e - rect_left rect in
  let centerX := width w / 2 in
  let s := set_x (mouseX - centerX) (state w) in
  let s := updatePositionFromX s in
  let s := set_thermalEnergy 0 s in
  let s := set_initialTotalEnergy 0 s in
  updateCharts (set_state s w).

(** [endDrag] (lines 257-259). *)
Definition endDrag (w : World) : World := set_dragging false w.

(** ** Controls *)

(** Click on the start/pause button (lines 262-266). *)
Definition clickStartPause (w : World) : World :=
  let w := set_simRunning (negb (simRunning w)) w in
  let w := set_dom (set_btnStartPause_textContent
                      (if simRunning w then "Pause" else "Start") (dom w)) w in
  if simRunning w
  then set_dom (set_overlayInstruction_opacity 0 (dom w)) w
  else w.

(** [change] on the friction checkbox (lines 274-278); the browser has
    already stored the new [checked]. *)
Definition changeToggleFriction (isChecked : bool) (w : World) : World :=
  let w := set_dom (set_toggleFriction_checked isChecked (dom w)) w in
  set_state (set_friction
               (if isChecked then sliderFriction_value (dom w) else 0)
               (state w)) w.

(** [input] on the friction slider (lines 280-284). *)
Definition inputSliderFriction (val : R) (w : World) : World :=
  let w := set_dom (set_sliderFriction_value val (dom w)) w in
  set_state (set_friction
               (if toggleFriction_checked (dom w) then val else 0)
               (state w)) w.

(** [input] on the gravity slider (lines 286-289). *)
Definition inputSliderGravity (val : R) (w : World) : World :=
  let w := set_dom (set_sliderGravity_value val (dom w)) w in
  set_state (set_gravity val (state w)) w.

(** ** Runs of the page *)

Inductive Event : Type :=
  | EvFrame (timestamp : R)
  | EvResize (clientWidth clientHeight : R)
  | EvStartDrag (e : PointerEvent) (rect : Rect)
  | EvDrag (e : PointerEvent) (rect : Rect)
  | EvEndDrag
  | EvClickStartPause
  | EvClickReset
  | EvChangeToggleFriction (isChecked : bool)
  | EvInputSliderFriction (val : R)
  | EvInputSliderGravity (val : R).

Definition handle (ev : Event) (w : World) : World :=
  match ev with
  | EvFrame timestamp => fst (loop timestamp w)
  | EvResize cw ch => resize cw ch w
  | EvStartDrag e rect => startDrag e rect w
  | EvDrag e rect => drag e rect w
  | EvEndDrag => endDrag w
  | EvClickStartPause => clickStartPause w
  | EvClickReset => resetSimulation w
  | EvChangeToggleFriction b => changeToggleFriction b w
  | EvInputSliderFriction val => inputSliderFriction val w
  | EvInputSliderGravity val => inputSliderGravity val w
  end.

Fixpoint run (evs : list Event) (w : World) : World :=
  match evs with
  | [] => w
  | ev :: rest => run rest (handle ev w)
  end.

(** Lines 23-25, 27-38, 71 and 292-293: the globals as declared, then
    [resize()] and [resetSimulation()].  [page] is the document as
    loaded, [clientWidth] and [clientHeight] the canvas parent's size. *)
Definition script_init (page : Dom) (clientWidth clientHeight : R) : World :=
  let w := mkWorld state_literal clientWidth clientHeight false false 0 page in
  resetSimulation (resize clientWidth clientHeight w).

(** The worlds the page can be in between two handlers. *)
Inductive reachable : World -> Prop :=
  | reach_init : forall page cw ch, reachable (script_init page cw ch)
  | reach_step : forall ev w, reachable w -> reachable (handle ev w).

(** The controller states of the specification. *)
Definition Idle (w : World) : Prop := simRunning w = false /\ dragging w = false.
Definition Running (w : World) : bool := simRunning w && negb (dragging w).

(** [y] lies on the parabola. *)
Definition onTrack (s : State) : Prop := y s = trackScale s * x s * x s.

(** ** The sub-step in the specification's words *)

(** The factor that turns the gravity shown on the page into
    simulation units (line 99). *)
Definition SCALE_G : R := 20.

(** The sub-step as the specification words it (section 4.2, steps 1
    to 6), on the numbers alone: curvature [k], the two parameters, the
    step [dt] and the mass at [(x0, v0)]; the result is [(x', y', v')]. *)
Definition advance_spec (k gravity_ frictionCoefficient dt x0 v0 : R) : R * R * R :=
  let slope := 2 * k * x0 in
  let sin_theta := slope / sqrt (1 + slope ^ 2) in
  let cos_theta := 1 / sqrt (1 + slope ^ 2) in
  let a := - (gravity_ * SCALE_G) * sin_theta in
  let a := if Rlt_dec 0 frictionCoefficient
           then a + - frictionCoefficient * v0 else a in
  let v' := v0 + a * dt in
  let x' := x0 + v' * cos_theta * dt in
  let y' := k * x' ^ 2 in
  (x', y', v').

(** The mirror image of a state: [x] and [v] change sign. *)
Definition reflect (s : State) : State := set_v (- v s) (set_x (- x s) s).

(** What [resetSimulation] reads of a world; everything else it
    overwrites. *)
Definition resetInputs (w : World) : World :=
  mkWorld (mkState 0 0 0 (mass (state w)) 0 0 0 0
                   (trackScale (state w)) (pixelsPerMeter (state w)))
          (width w) (height w) false (dragging w) (lastTime w)
          (mkDom (toggleFriction_checked (dom w)) (sliderFriction_value (dom w))
                 (sliderGravity_value (dom w)) EmptyString 0 0 0 0 0 0 0 0 0).

(** ** Concrete runs

    A page as loaded (friction off, gravity slider at 9.8) in an 800 by
    600 canvas, and the worlds a few short runs lead to, each written
    out field by field. *)

Definition page0 : Dom := mkDom false 0.1 9.8 "Start" 1 0 0 0 0 0 0 0 0.

(** The world right after the script has run on [page0]. *)
Definition world0 : World := script_init page0 800 600.

(** [world0] written out: the mass rests at [x = -100], [y = 50], and
    the call of [updateCharts] that ends [resetSimulation] has already
    captured the baseline 4.9. *)
Definition world_loaded : World :=
  mkWorld (mkState (-100) 50 0 1 9.8 0 0 4.9 0.005 100) 800 600 false false 0
          (mkDom false 0.1 9.8 "Start" 1 49 0 0 100 5 0 0 5).

(** From [world_loaded], the gravity slider moved to 10. *)
Definition world_heavier : World :=
  mkWorld (mkState (-100) 50 0 1 10 0 0 4.9 0.005 100) 800 600 false false 0
          (mkDom false 0.1 10 "Start" 1 49 0 0 100 5 0 0 5).

(** [world_heavier] one frame later. *)
Definition world_heavier_shown : World :=
  mkWorld (mkState (-100) 50 0 1 10 0 0 4.9 0.005 100) 800 600 false false 16
          (mkDom false 0.1 10 "Start" 1 50 0 0 100 5 0 0 5).

(** From [world_loaded], the start button pressed. *)
Definition world_started : World :=
  mkWorld (mkState (-100) 50 0 1 9.8 0 0 4.9 0.005 100) 800 600 true false 0
          (mkDom false 0.1 9.8 "Pause" 0 49 0 0 100 5 0 0 5).

(** A press on the ball of the freshly loaded page: the canvas sits at
    the window corner, the ball is drawn at (300, 500). *)
Definition press_on_ball : Event := EvStartDrag (MouseEvent 300 500) (mkRect 0 0).

(** From [world_loaded], the ball pressed. *)
Definition world_grabbed : World :=
  mkWorld (mkState (-100) 50 0 1 9.8 0 0 4.9 0.005 100) 800 600 false true 0
          (mkDom false 0.1 9.8 "Start" 0 49 0 0 100 5 0 0 5).

(** [world_grabbed] after one frame with the ball held. *)
Definition world_held : World :=
  mkWorld (mkState (-100) 50 0 1 9.8 0 0 4.9 0.005 100) 800 600 false true 16
          (mkDom false 0.1 9.8 "Start" 0 49 0 0 100 5 0 0 5).

(** A run on which the baseline is captured with the value zero: with
    the gravity slider at 0 the ball is grabbed and held for a frame
    (line 176 stores [pe + ke = 0]), then released, and the slider is
    moved back to 9.8. *)
Definition weightless_grab : list Event :=
  [EvInputSliderGravity 0; press_on_ball; EvFrame 16; EvEndDrag;
   EvInputSliderGravity 9.8].

(** The worlds along [weightless_grab]: slider at 0, ... *)
Definition world_weightless : World :=
  mkWorld (mkState (-100) 50 0 1 0 0 0 4.9 0.005 100) 800 600 false false 0
          (mkDom false 0.1 0 "Start" 1 49 0 0 100 5 0 0 5).

(** ... ball pressed, ... *)
Definition world_weightless_grabbed : World :=
  mkWorld (mkState (-100) 50 0 1 0 0 0 4.9 0.005 100) 800 600 false true 0
          (mkDom false 0.1 0 "Start" 0 49 0 0 100 5 0 0 5).

(** ... the frame with the ball held, which stores the baseline [0], ... *)
Definition world_weightless_held : World :=
  mkWorld (mkState (-100) 50 0 1 0 0 0 0 0.005 100) 800 600 false true 16
          (mkDom false 0.1 0 "Start" 0 0 0 0 100 0 0 0 0).

(** ... and the ball released with the slider back at 9.8. *)
Definition world_released : World :=
  mkWorld (mkState (-100) 50 0 1 9.8 0 0 0 0.005 100) 800 600 false false 16
          (mkDom false 0.1 9.8 "Start" 0 0 0 0 100 0 0 0 0).

(** ** Drawing *)

(** What [draw] sends to the 2D context, in order. *)
Inductive CanvasOp : Type :=
  | ClearRect (left_ top_ w h : R)
  | BeginPath
  | SetStrokeStyle (style : string)
  | SetLineWidth (a : R)
  | MoveTo (px py : R)
  | LineTo (px py : R)
  | Stroke
  | SetFillStyle (style : string)
  | Arc (cx cy radius startAngle endAngle : R)
  | Fill
  | SetShadowBlur (a : R)
  | SetShadowColor (style : string).

(** The [for] loop of lines 136-141, from the current [ix] on; [fuel]
    bounds the number of iterations still allowed. *)
Fixpoint trackLoop (fuel : nat) (width_ trackScale_ centerX bottomY ix : R)
  : list CanvasOp :=
  match fuel with
  | O => []
  | S fuel' =>
      if ltb ix (width_ / 2) then
        let iy := trackScale_ * ix * ix in
        let rest := trackLoop fuel' width_ trackScale_ centerX bottomY (ix + 5) in
        if ltb (bottomY - iy) 0 then rest
        else if Req_dec_T ix (- width_ / 2)
             then MoveTo (centerX + ix) (bottomY - iy) :: rest
             else LineTo (centerX + ix) (bottomY - iy) :: rest
      else []
  end.

(** Iterations that are always enough: the loop walks a stretch of
    length [width] in steps of 5. *)
Definition trackFuel (width_ : R) : nat := Z.to_nat (up (width_ / 5)).

(** [draw] (lines 126-158) with a given bound on the loop. *)
Definition drawWith (fuel : nat) (w : World) : list CanvasOp :=
  let centerX := width w / 2 in
  let bottomY := height w - 50 in
  let ballX := centerX + x (state w) in
  let ballY := bottomY - y (state w) in
  [ClearRect 0 0 (width w) (height w);
   BeginPath; SetStrokeStyle "rgba(255, 255, 255, 0.2)"; SetLineWidth 4]
  ++ trackLoop fuel (width w) (trackScale (state w)) centerX bottomY (- width w / 2)
  ++ [Stroke;
      BeginPath; SetFillStyle "#f1f5f9"; Arc ballX ballY 15 0 (PI * 2); Fill;
      SetShadowBlur 15; SetShadowColor "rgba(255, 255, 255, 0.5)"; Fill;
      SetShadowBlur 0].

Definition draw (w : World) : list CanvasOp := drawWith (trackFuel (width w)) w.

(** The point a path operation goes to, if it is one. *)
Definition pathPoint (op : CanvasOp) : option (R * R) :=
  match op with
  | MoveTo px py => Some (px, py)
  | LineTo px py => Some (px, py)
  | _ => None
  end.

(** A canvas 10 pixels wide with the mass at the bottom. *)
Definition world_narrow : World :=
  mkWorld (mkState 0 0 0 1 9.8 0 0 0 0.005 100) 10 600 false false 0 page0.

(** ** Predicates on worlds and events *)

(** The mirror image of a world. *)
Definition reflectWorld (w : World) : World := set_state (reflect (state w)) w.

(** The fields of [state] no handler assigns keep the values of the
    object literal, and [thermalEnergy] only ever receives zero. *)
Definition literalFields (s : State) : Prop :=
  mass s = 1 /\ trackScale s = 0.005 /\ pixelsPerMeter s = 100
  /\ thermalEnergy s = 0.

(** [state] holds what the two sliders and the checkbox show. *)
Definition controlsMirrored (w : World) : Prop :=
  gravity (state w) = sliderGravity_value (dom w)
  /\ friction (state w)
     = (if toggleFriction_checked (dom w) then sliderFriction_value (dom w) else 0).

(** The button offers the opposite of what the simulation is doing. *)
Definition labelMatches (w : World) : Prop :=
  btnStartPause_textContent (dom w)
  = (if simRunning w then "Pause" else "Start")%string.

(** The events whose handlers assign [state.x]. *)
Definition placesMass (ev : Event) : bool :=
  match ev with
  | EvDrag _ _ => true
  | EvClickReset => true
  | _ => false
  end.

(** ** Facts about the tests *)

Lemma gtb_true_iff (a b : R) : gtb a b = true <-> b < a.
Proof. unfold gtb. destruct (Rlt_dec b a); split; intros; auto; discriminate. Qed.

Lemma gtb_false_iff (a b : R) : gtb a b = false <-> a <= b.
Proof.
  unfold gtb. destruct (Rlt_dec b a); split; intros; auto; try discriminate; lra.
Qed.

Lemma ltb_true_iff (a b : R) : ltb a b = true <-> a < b.
Proof. unfold ltb. destruct (Rlt_dec a b); split; intros; auto; discriminate. Qed.

Lemma ltb_false_iff (a b : R) : ltb a b = false <-> b <= a.
Proof.
  unfold ltb. destruct (Rlt_dec a b); split; intros; auto; try discriminate; lra.
Qed.

Lemma truthy_true_iff (a : R) : truthy a = true <-> a <> 0.
Proof.
  unfold truthy. destruct (Req_dec_T a 0); split; intros; auto;
    try discriminate; try contradiction.
Qed.

Lemma truthy_false_iff (a : R) : truthy a = false <-> a = 0.
Proof.
  unfold truthy. destruct (Req_dec_T a 0); split; intros; auto;
    try discriminate; try contradiction.
Qed.

(** Unfold the script on a concrete world and settle every test met on
    the way by linear arithmetic. *)
Ltac unfold_script :=
  cbv beta iota zeta delta
    [run handle loop frameDt subStepLoop updateCharts report ledger render
     lazyCaptureFires potentialEnergy kineticEnergy scaleE
     resetSimulation resize script_init state_literal
     startDrag drag endDrag grabDistance Math_hypot clientX_of clientY_of
     clickStartPause changeToggleFriction inputSliderFriction inputSliderGravity
     updatePhysics updatePositionFromX
     set_x set_y set_v set_gravity set_friction set_thermalEnergy
     set_initialTotalEnergy set_state set_size set_simRunning set_dragging
     set_lastTime set_dom set_toggleFriction_checked set_sliderFriction_value
     set_sliderGravity_value set_btnStartPause_textContent
     set_overlayInstruction_opacity
     x y v mass gravity friction thermalEnergy initialTotalEnergy trackScale
     pixelsPerMeter state width height simRunning dragging lastTime dom
     toggleFriction_checked sliderFriction_value sliderGravity_value
     btnStartPause_textContent overlayInstruction_opacity barPotential_width
     barKinetic_width barThermal_width barTotal_width valPotential_textContent
     valKinetic_textContent valThermal_textContent valTotal_textContent Rmax
     pe ke thermal total maxE rect_left rect_top touch_clientX touch_clientY
     gtb ltb truthy fst snd andb negb app].

Ltac settle_tests :=
  repeat (cbv beta iota;
          match goal with
          | |- context [Rlt_dec ?a ?b] =>
              destruct (Rlt_dec a b); [ try (exfalso; lra) | try (exfalso; lra) ]
          | |- context [Req_dec_T ?a ?b] =>
              destruct (Req_dec_T a b); [ try (exfalso; lra) | try (exfalso; lra) ]
          | |- context [Rle_dec ?a ?b] =>
              destruct (Rle_dec a b); [ try (exfalso; lra) | try (exfalso; lra) ]
          end);
  cbv beta iota.

Ltac evaluate := unfold_script; settle_tests.

(** ** The ledger *)

Lemma updateCharts_state (w : World) :
  state (updateCharts w) = fst (ledger (dragging w) (state w)).
Proof. unfold updateCharts. destruct (ledger _ _); reflexivity. Qed.

Lemma updateCharts_dom (w : World) :
  dom (updateCharts w) = render (report w) (dom w).
Proof. unfold updateCharts, report. destruct (ledger _ _); reflexivity. Qed.

Lemma updateCharts_flags (w : World) :
  simRunning (updateCharts w) = simRunning w
  /\ dragging (updateCharts w) = dragging w
  /\ lastTime (updateCharts w) = lastTime w
  /\ width (updateCharts w) = width w
  /\ height (updateCharts w) = height w.
Proof. unfold updateCharts. destruct (ledger _ _); repeat split. Qed.

(** The ledger only ever writes the baseline and [thermalEnergy]. *)
Lemma ledger_frame (d : bool) (s : State) :
  let s' := fst (ledger d s) in
  x s' = x s /\ y s' = y s /\ v s' = v s /\ mass s' = mass s
  /\ gravity s' = gravity s /\ friction s' = friction s
  /\ trackScale s' = trackScale s /\ pixelsPerMeter s' = pixelsPerMeter s.
Proof.
  unfold ledger; cbn [fst].
  destruct (lazyCaptureFires s), d; cbn; repeat split.
Qed.

(** ** Concrete worlds *)

Lemma mkState_ext (a1 a2 a3 a4 a5 a6 a7 a8 a9 a10 b1 b2 b3 b4 b5 b6 b7 b8 b9 b10 : R) :
  a1 = b1 -> a2 = b2 -> a3 = b3 -> a4 = b4 -> a5 = b5 -> a6 = b6 -> a7 = b7 ->
  a8 = b8 -> a9 = b9 -> a10 = b10 ->
  mkState a1 a2 a3 a4 a5 a6 a7 a8 a9 a10 = mkState b1 b2 b3 b4 b5 b6 b7 b8 b9 b10.
Proof. intros; subst; reflexivity. Qed.

Lemma mkDom_ext (c : bool) (f1 f2 g1 g2 : R) (t : string)
      (o1 o2 p1 p2 k1 k2 h1 h2 q1 q2 : R) (y1 y2 y3 y4 z1 z2 z3 z4 : Z) :
  f1 = f2 -> g1 = g2 -> o1 = o2 -> p1 = p2 -> k1 = k2 -> h1 = h2 -> q1 = q2 ->
  y1 = z1 -> y2 = z2 -> y3 = z3 -> y4 = z4 ->
  mkDom c f1 g1 t o1 p1 k1 h1 q1 y1 y2 y3 y4
  = mkDom c f2 g2 t o2 p2 k2 h2 q2 z1 z2 z3 z4.
Proof. intros; subst; reflexivity. Qed.

Lemma mkWorld_ext (s1 s2 : State) (w1 w2 h1 h2 : R) (r d : bool) (l1 l2 : R) (d1 d2 : Dom) :
  s1 = s2 -> w1 = w2 -> h1 = h2 -> l1 = l2 -> d1 = d2 ->
  mkWorld s1 w1 h1 r d l1 d1 = mkWorld s2 w2 h2 r d l2 d2.
Proof. intros; subst; reflexivity. Qed.

Lemma Math_round_eq (a : R) (z : Z) :
  IZR z <= a + 0.5 < IZR z + 1 -> Math_round a = z.
Proof.
  intros [H1 H2]. unfold Math_round. symmetry. apply Int_part_spec. lra.
Qed.

(** Two worlds written out field by field are equal. *)
Ltac same_world :=
  apply mkWorld_ext;
  [ apply mkState_ext; lra | lra | lra | lra
  | apply mkDom_ext; first [ reflexivity | lra | apply Math_round_eq; lra ] ].

Lemma world0_is : world0 = world_loaded.
Proof. unfold world0, page0, world_loaded. evaluate. same_world. Qed.

Lemma world_heavier_is :
  handle (EvInputSliderGravity 10) world_loaded = world_heavier.
Proof. unfold world_loaded, world_heavier. evaluate. same_world. Qed.

Lemma world_heavier_shown_is :
  handle (EvFrame 16) world_heavier = world_heavier_shown.
Proof. unfold world_heavier, world_heavier_shown. evaluate. same_world. Qed.

Lemma reachable_run (evs : list Event) :
  forall w, reachable w -> reachable (run evs w).
Proof.
  induction evs as [|ev rest IH]; intros w Hw; cbn.
  - exact Hw.
  - apply IH. now apply reach_step.
Qed.

Lemma report_total (w : World) :
  total (report w) = pe (report w) + ke (report w) + thermal (report w).
Proof. reflexivity. Qed.

Lemma report_pe_ke (w : World) :
  pe (report w) = potentialEnergy (state w)
  /\ ke (report w) = kineticEnergy (state w).
Proof. split; reflexivity. Qed.

(** The residual as [updateCharts] leaves it, by cases on the baseline
    the ledger ends up with. *)
Lemma report_thermal (w : World) :
  let e0 := initialTotalEnergy (state (updateCharts w)) in
  let e := pe (report w) + ke (report w) in
  thermal (report w) = if truthy e0 then Rmax 0 (e0 - e) else 0.
Proof.
  cbv zeta. rewrite updateCharts_state. unfold report, ledger; cbn [fst snd thermal pe ke].
  match goal with |- context [truthy ?a] => destruct (truthy a) end; [|reflexivity].
  match goal with |- context [ltb ?a 0] => destruct (ltb a 0) eqn:E end.
  - apply ltb_true_iff in E. rewrite Rmax_left; lra.
  - apply ltb_false_iff in E. rewrite Rmax_right; lra.
Qed.

(** ** C4: the thermal floor *)

(** C4. Whatever the world (so in particular in every reachable one),
    the thermal energy that [updateCharts] reports is at least zero;
    where the residual, baseline minus potential plus kinetic energy,
    is negative, the report shows zero. *)
Theorem C4_thermal_never_negative :
  forall w : World,
    0 <= thermal (report w)
    /\ (initialTotalEnergy (state (updateCharts w))
        - (pe (report w) + ke (report w)) < 0 ->
        thermal (report w) = 0).
Proof.
  intro w. rewrite report_thermal. cbv zeta.
  destruct (truthy _); split; try lra.
  - apply Rmax_l.
  - intro Hneg. rewrite Rmax_left; lra.
Qed.

(** With the slider moved to 10 the residual [4.9 - 5] is negative. *)
Lemma C4_thermal_never_negative_witness :
  thermal (report world_heavier) = 0.
Proof.
  apply (C4_thermal_never_negative world_heavier).
  unfold world_heavier. evaluate. lra.
Defined.

(** ** C9: the denominator of the bars *)

(** C9. The bars are scaled by [maxE = max(total, 10)]; this denominator
    is at least 10, hence never zero, and it is the one every bar
    width is divided by. *)
Theorem C9_bar_denominator_at_least_ten :
  forall w : World,
    let r := report w in
    let d := dom (updateCharts w) in
    maxE r = Rmax (total r) 10
    /\ 10 <= maxE r
    /\ maxE r <> 0
    /\ barPotential_width d = pe r / maxE r * 100
    /\ barKinetic_width d = ke r / maxE r * 100
    /\ barThermal_width d = thermal r / maxE r * 100.
Proof.
  intro w. cbv zeta. rewrite updateCharts_dom.
  assert (H : 10 <= maxE (report w)) by apply Rmax_r.
  repeat split; try reflexivity; lra.
Qed.

(** ** C1: total against the baseline *)

(** C1, as stated, fails: from the freshly loaded page (baseline 4.9
    captured by the reset), move the gravity slider from 9.8 to 10 and
    let one frame pass.  Nobody is dragging, the baseline is still 4.9,
    the residual [4.9 - 5] is clamped to zero and the total shown is 5. *)
Lemma C1_total_can_exceed_baseline :
  let w := run [EvInputSliderGravity 10; EvFrame 16] world0 in
  reachable w
  /\ dragging w = false
  /\ initialTotalEnergy (state (updateCharts w)) = 4.9
  /\ thermal (report w) = 0
  /\ total (report w) = 5
  /\ total (report w) <> initialTotalEnergy (state (updateCharts w)).
Proof.
  cbv zeta. split; [apply reachable_run, reach_init|].
  rewrite world0_is. cbn [run].
  rewrite world_heavier_is, world_heavier_shown_is.
  unfold world_heavier_shown. evaluate. repeat split; lra.
Qed.

(** C1, amended.  With a baseline in place and nobody dragging, the
    total is [potential + kinetic + thermal], where thermal is the
    residual, baseline minus potential plus kinetic energy, when that
    is not negative, and zero when it is negative; in the latter case
    the total is potential plus kinetic energy and lies strictly above
    the baseline.  Whether the sum with the residual gives back the
    baseline itself is left open: the script adds it in floating
    point. *)
Theorem C1_total_is_sum_with_clamped_residual :
  forall w : World,
    dragging w = false ->
    initialTotalEnergy (state (updateCharts w)) <> 0 ->
    let r := report w in
    let e0 := initialTotalEnergy (state (updateCharts w)) in
    total r = pe r + ke r + thermal r
    /\ (0 <= e0 - (pe r + ke r) -> thermal r = e0 - (pe r + ke r))
    /\ (e0 - (pe r + ke r) < 0 ->
        thermal r = 0 /\ total r = pe r + ke r /\ e0 < total r).
Proof.
  intros w _ Hset. cbv zeta.
  pose proof (report_thermal w) as Ht. cbv zeta in Ht.
  apply truthy_true_iff in Hset. rewrite Hset in Ht.
  rewrite report_total, Ht.
  set (e0 := initialTotalEnergy (state (updateCharts w))).
  set (e := pe (report w) + ke (report w)).
  split; [reflexivity|]. split.
  - intro Hpos. apply Rmax_right. exact Hpos.
  - intro Hneg. rewrite Rmax_left by lra. repeat split; lra.
Qed.

(** On the freshly loaded page the thermal energy is the residual;
    with the gravity slider moved to 10 the residual is negative and
    the total lies above the baseline. *)
Lemma C1_total_is_sum_with_clamped_residual_witness :
  thermal (report world_loaded)
  = initialTotalEnergy (state (updateCharts world_loaded))
    - (pe (report world_loaded) + ke (report world_loaded))
  /\ initialTotalEnergy (state (updateCharts world_heavier))
     < total (report world_heavier).
Proof.
  split.
  - apply (C1_total_is_sum_with_clamped_residual world_loaded).
    + reflexivity.
    + unfold world_loaded. evaluate. lra.
    + unfold world_loaded. evaluate. lra.
  - apply (C1_total_is_sum_with_clamped_residual world_heavier).
    + reflexivity.
    + unfold world_heavier. evaluate. lra.
    + unfold world_heavier. evaluate. lra.
Defined.

(** ** C3: one sub-step of the integrator *)

Lemma sq_as_pow (a : R) : a * a = a ^ 2.
Proof. ring. Qed.

Lemma triple_ext (a b c a' b' c' : R) :
  a = a' -> b = b' -> c = c' -> (a, b, c) = (a', b', c').
Proof. intros; subst; reflexivity. Qed.

(** C3. [updatePhysics(dt)] is the sub-step of the specification: slope
    [2*k*x], the sine and cosine of the track angle from it, tangential
    acceleration [-(gravity*SCALE_G)*sin], the drag term [-friction*v]
    added exactly when [friction > 0], velocity first, then position
    with the new velocity, then [y] from the new [x]; nothing else in
    [state] changes. *)
Theorem C3_updatePhysics_is_the_specified_substep :
  forall (dt : R) (s : State),
    let s' := updatePhysics dt s in
    (x s', y s', v s')
      = advance_spec (trackScale s) (gravity s) (friction s) dt (x s) (v s)
    /\ mass s' = mass s /\ gravity s' = gravity s /\ friction s' = friction s
    /\ thermalEnergy s' = thermalEnergy s
    /\ initialTotalEnergy s' = initialTotalEnergy s
    /\ trackScale s' = trackScale s /\ pixelsPerMeter s' = pixelsPerMeter s.
Proof.
  intros dt s. cbv zeta. split; [|repeat split].
  unfold updatePhysics, advance_spec, updatePositionFromX, SCALE_G, gtb.
  cbn [x y v trackScale set_x set_y set_v gravity friction].
  rewrite <- !sq_as_pow.
  destruct (Rlt_dec 0 (friction s));
    apply triple_ext; unfold Rdiv; ring.
Qed.

(** One sub-step by hand: at rest at [x = -75] the slope is [-3/4], so
    the root is [5/4], the sine [-3/5] and the cosine [4/5]; with
    gravity 9.8 and no friction a step of 0.01 s gives [v = 1.176] and
    moves the mass by [1.176 * 0.8 * 0.01] towards the bottom. *)
Example updatePhysics_from_rest :
  updatePhysics 0.01 (mkState (-75) 28.125 0 1 9.8 0 0 0 0.005 100)
  = mkState (-74.990592) (0.005 * -74.990592 * -74.990592) 1.176
            1 9.8 0 0 0 0.005 100.
Proof.
  cbv beta iota zeta delta
    [updatePhysics updatePositionFromX set_x set_y set_v
     x y v mass gravity friction thermalEnergy initialTotalEnergy
     trackScale pixelsPerMeter gtb].
  replace (sqrt (1 + 2 * 0.005 * -75 * (2 * 0.005 * -75))) with 1.25.
  - settle_tests. apply mkState_ext; lra.
  - replace (1 + 2 * 0.005 * -75 * (2 * 0.005 * -75)) with (1.25 * 1.25) by lra.
    symmetry. apply sqrt_square. lra.
Qed.

(** ** C10: reflection symmetry of the sub-step *)

(** C10. A sub-step commutes with reflection, so from [(-x, -v)] it
    lands on [(-x', -v')] with the same [y']; and the bottom of the
    track at rest stays where it is, whatever the step, gravity and
    friction. *)
Theorem C10_substep_is_odd :
  (forall (dt : R) (s : State),
      updatePhysics dt (reflect s) = reflect (updatePhysics dt s))
  /\ (forall (dt : R) (s : State),
         x s = 0 -> v s = 0 ->
         x (updatePhysics dt s) = 0 /\ v (updatePhysics dt s) = 0
         /\ y (updatePhysics dt s) = 0).
Proof.
  split.
  - intros dt [x0 y0 v0 m g f te ie k ppm].
    cbv beta iota zeta delta
      [updatePhysics reflect updatePositionFromX gtb set_x set_y set_v
       x y v mass gravity friction thermalEnergy initialTotalEnergy
       trackScale pixelsPerMeter].
    replace (2 * k * - x0 * (2 * k * - x0))
      with (2 * k * x0 * (2 * k * x0)) by ring.
    destruct (Rlt_dec 0 f); apply mkState_ext;
      try reflexivity; unfold Rdiv; ring.
  - intros dt s Hx Hv.
    unfold updatePhysics, updatePositionFromX, gtb, set_x, set_y, set_v.
    cbn [x y v trackScale gravity friction].
    rewrite Hx, Hv.
    destruct (Rlt_dec 0 (friction s)); repeat split; unfold Rdiv; ring.
Qed.

(** The mass at rest at the bottom, with friction on, after a step. *)
Lemma C10_substep_is_odd_witness :
  let s := mkState 0 0 0 1 9.8 0.1 0 0 0.005 100 in
  x (updatePhysics 0.01 s) = 0 /\ v (updatePhysics 0.01 s) = 0
  /\ y (updatePhysics 0.01 s) = 0.
Proof.
  cbv zeta. apply (proj2 C10_substep_is_odd); reflexivity.
Defined.

(** ** C7: the mass stays on the track *)

Lemma onTrack_same (s s' : State) :
  x s' = x s -> y s' = y s -> trackScale s' = trackScale s ->
  onTrack s -> onTrack s'.
Proof. unfold onTrack. intros -> -> ->. auto. Qed.

Lemma updatePositionFromX_onTrack (s : State) : onTrack (updatePositionFromX s).
Proof. reflexivity. Qed.

Lemma updatePhysics_onTrack (dt : R) (s : State) : onTrack (updatePhysics dt s).
Proof. unfold updatePhysics. cbv zeta. apply updatePositionFromX_onTrack. Qed.

Lemma subStepLoop_onTrack (n : nat) (subDt : R) :
  forall s, onTrack s -> onTrack (fst (subStepLoop n subDt s)).
Proof.
  induction n as [|n IH]; intros s Hs; cbn [subStepLoop].
  - exact Hs.
  - specialize (IH (updatePhysics subDt s) (updatePhysics_onTrack subDt s)).
    destruct (subStepLoop n subDt (updatePhysics subDt s)). exact IH.
Qed.

Lemma updateCharts_onTrack (w : World) :
  onTrack (state w) -> onTrack (state (updateCharts w)).
Proof.
  rewrite updateCharts_state.
  destruct (ledger_frame (dragging w) (state w)) as (Hx & Hy & _ & _ & _ & _ & Hk & _).
  now apply onTrack_same.
Qed.

Lemma resetSimulation_onTrack (w : World) : onTrack (state (resetSimulation w)).
Proof.
  unfold resetSimulation. cbv zeta.
  apply updateCharts_onTrack. apply updatePositionFromX_onTrack.
Qed.

Lemma loop_onTrack (timestamp : R) (w : World) :
  onTrack (state w) -> onTrack (state (fst (loop timestamp w))).
Proof.
  intro Hw. unfold loop. cbv zeta.
  destruct (simRunning (set_lastTime timestamp w)
            && negb (dragging (set_lastTime timestamp w))).
  - pose proof (subStepLoop_onTrack 10 (frameDt timestamp w / INR 10)
                  (state (set_lastTime timestamp w)) Hw) as H.
    destruct (subStepLoop _ _ _). cbn [fst] in *.
    apply updateCharts_onTrack. exact H.
  - cbn [fst]. apply updateCharts_onTrack. exact Hw.
Qed.

Lemma startDrag_onTrack (e : PointerEvent) (rect : Rect) (w : World) :
  onTrack (state w) -> onTrack (state (startDrag e rect w)).
Proof.
  intro Hw. unfold startDrag. cbv zeta.
  destruct (ltb _ 40); [|exact Hw].
  revert Hw. apply onTrack_same; reflexivity.
Qed.

Lemma drag_onTrack (e : PointerEvent) (rect : Rect) (w : World) :
  onTrack (state w) -> onTrack (state (drag e rect w)).
Proof.
  intro Hw. unfold drag. destruct (negb (dragging w)); [exact Hw|]. cbv zeta.
  apply updateCharts_onTrack.
  eapply onTrack_same; [| | |apply updatePositionFromX_onTrack];
    reflexivity.
Qed.

Lemma clickStartPause_state (w : World) : state (clickStartPause w) = state w.
Proof. destruct w as [s cw ch [|] d l dm]; reflexivity. Qed.

Lemma handle_onTrack (ev : Event) (w : World) :
  onTrack (state w) -> onTrack (state (handle ev w)).
Proof.
  destruct ev; cbn [handle]; intro Hw.
  - now apply loop_onTrack.
  - exact Hw.
  - now apply startDrag_onTrack.
  - now apply drag_onTrack.
  - exact Hw.
  - now rewrite clickStartPause_state.
  - apply resetSimulation_onTrack.
  - exact Hw.
  - exact Hw.
  - exact Hw.
Qed.

(** C7. In every world the page can be in between two handlers,
    [y = trackScale * x^2]; and each operation that moves the mass (a
    sub-step, a drag, a reset) ends with [y] recomputed from the new
    [x], whatever [y] was before. *)
Theorem C7_y_is_track_height :
  forall w : World,
    reachable w ->
    onTrack (state w)
    /\ y (state w) = trackScale (state w) * (x (state w)) ^ 2
    /\ (forall dt, onTrack (updatePhysics dt (state w)))
    /\ (forall e rect, onTrack (state (drag e rect w)))
    /\ onTrack (state (resetSimulation w)).
Proof.
  intros w Hw.
  assert (H : onTrack (state w)).
  { induction Hw as [page cw ch | ev w Hw IH].
    - unfold script_init. cbv zeta. apply resetSimulation_onTrack.
    - now apply handle_onTrack. }
  split; [exact H|]. split; [|split; [|split]].
  - unfold onTrack in H. rewrite H. ring.
  - intro dt. apply updatePhysics_onTrack.
  - intros e rect. now apply drag_onTrack.
  - apply resetSimulation_onTrack.
Qed.

(** The freshly loaded page has the mass on the track. *)
Lemma C7_y_is_track_height_witness :
  y (state world0) = trackScale (state world0) * (x (state world0)) ^ 2.
Proof.
  apply (C7_y_is_track_height world0). apply reach_init.
Defined.

(** ** C5: the frame driver *)

Lemma frameDt_capped (timestamp : R) (w : World) :
  frameDt timestamp w
  = Rmin ((timestamp - (if truthy (lastTime w) then lastTime w else timestamp)) / 1000)
         0.1.
Proof.
  unfold frameDt. cbv zeta.
  match goal with |- context [gtb ?a 0.1] => destruct (gtb a 0.1) eqn:E end.
  - apply gtb_true_iff in E. rewrite Rmin_right; lra.
  - apply gtb_false_iff in E. rewrite Rmin_left; lra.
Qed.

Lemma subStepLoop_unfold (n : nat) (subDt : R) :
  forall s,
    subStepLoop n subDt s
    = (Nat.iter n (updatePhysics subDt) s, repeat (CallUpdatePhysics subDt) n).
Proof.
  induction n as [|n IH]; intro s.
  - reflexivity.
  - cbn [subStepLoop]. rewrite IH, Nat.iter_succ_r. reflexivity.
Qed.

Lemma INR_10 : INR 10 = 10.
Proof. cbn. lra. Qed.

(** C5. Every frame caps the elapsed time at 0.1 s and divides it by
    10, so a sub-step is at most 0.01 s long.  A Running controller
    makes exactly ten calls of [updatePhysics] with that sub-step; in
    any other state it makes none and the mass stays put.  Either way
    the frame goes on to [draw] and [updateCharts], which work on the
    state the physics left. *)
Theorem C5_frame_is_capped_and_substepped :
  forall (timestamp : R) (w : World),
    let dt := frameDt timestamp w in
    let subDt := dt / 10 in
    let w' := fst (loop timestamp w) in
    let calls := snd (loop timestamp w) in
    let tail := [CallDraw; CallUpdateCharts; CallRequestAnimationFrame] in
    dt = Rmin ((timestamp
                - (if truthy (lastTime w) then lastTime w else timestamp)) / 1000) 0.1
    /\ dt <= 0.1
    /\ subDt <= 0.01
    /\ (Running w = true ->
        calls = repeat (CallUpdatePhysics subDt) 10 ++ tail
        /\ w' = updateCharts
                  (set_state (Nat.iter 10 (updatePhysics subDt) (state w))
                             (set_lastTime timestamp w)))
    /\ (Running w = false ->
        calls = tail
        /\ w' = updateCharts (set_lastTime timestamp w)
        /\ x (state w') = x (state w) /\ y (state w') = y (state w)
        /\ v (state w') = v (state w)).
Proof.
  intros timestamp w. cbv zeta.
  pose proof (frameDt_capped timestamp w) as Hdt.
  assert (Hcap : frameDt timestamp w <= 0.1) by (rewrite Hdt; apply Rmin_r).
  split; [exact Hdt|]. split; [exact Hcap|]. split; [lra|].
  unfold Running. split; intro Hrun.
  - unfold loop. cbv zeta.
    replace (simRunning (set_lastTime timestamp w)
             && negb (dragging (set_lastTime timestamp w)))
      with true by (symmetry; exact Hrun).
    rewrite subStepLoop_unfold, INR_10. split; reflexivity.
  - unfold loop. cbv zeta.
    replace (simRunning (set_lastTime timestamp w)
             && negb (dragging (set_lastTime timestamp w)))
      with false by (symmetry; exact Hrun).
    cbn [fst snd app].
    assert (Hw : set_state (state (set_lastTime timestamp w)) (set_lastTime timestamp w)
                 = set_lastTime timestamp w) by reflexivity.
    rewrite Hw. split; [reflexivity|]. split; [reflexivity|].
    rewrite updateCharts_state.
    destruct (ledger_frame (dragging (set_lastTime timestamp w))
                (state (set_lastTime timestamp w))) as (Hx & Hy & Hv & _).
    auto.
Qed.

Lemma world_started_is : handle EvClickStartPause world_loaded = world_started.
Proof. reflexivity. Qed.

(** A frame of the started simulation makes its ten sub-steps. *)
Lemma C5_frame_is_capped_and_substepped_witness :
  Running world_started = true
  /\ snd (loop 16 world_started)
     = repeat (CallUpdatePhysics (frameDt 16 world_started / 10)) 10
       ++ [CallDraw; CallUpdateCharts; CallRequestAnimationFrame].
Proof.
  split; [reflexivity|].
  apply (C5_frame_is_capped_and_substepped 16 world_started). reflexivity.
Defined.

(** ** Grabbing the mass *)

Lemma grabDistance_on_ball (e : PointerEvent) (rect : Rect) (w : World) :
  clientX_of e - rect_left rect = width w / 2 + x (state w) ->
  clientY_of e - rect_top rect = height w - 50 - y (state w) ->
  grabDistance e rect w = 0.
Proof.
  intros Hx Hy. unfold grabDistance, Math_hypot. cbv zeta.
  rewrite Hx, Hy.
  replace (width w / 2 + x (state w) - (width w / 2 + x (state w))) with 0 by ring.
  replace (height w - 50 - y (state w) - (height w - 50 - y (state w))) with 0 by ring.
  replace (0 * 0 + 0 * 0) with 0 by ring.
  apply sqrt_0.
Qed.

Lemma startDrag_hit (e : PointerEvent) (rect : Rect) (w : World) :
  grabDistance e rect w < 40 ->
  startDrag e rect w
  = mkWorld (set_v 0 (state w)) (width w) (height w) false true (lastTime w)
            (set_overlayInstruction_opacity 0
               (set_btnStartPause_textContent "Start" (dom w))).
Proof.
  intro H. unfold startDrag. cbv zeta.
  apply ltb_true_iff in H. rewrite H. reflexivity.
Qed.

Lemma startDrag_miss (e : PointerEvent) (rect : Rect) (w : World) :
  40 <= grabDistance e rect w -> startDrag e rect w = w.
Proof.
  intro H. unfold startDrag. cbv zeta.
  apply ltb_false_iff in H. rewrite H. reflexivity.
Qed.

Lemma world_grabbed_is : handle press_on_ball world_loaded = world_grabbed.
Proof.
  cbn [handle press_on_ball]. rewrite startDrag_hit.
  - reflexivity.
  - rewrite grabDistance_on_ball; cbn; lra.
Qed.

Lemma world_held_is : handle (EvFrame 16) world_grabbed = world_held.
Proof. unfold world_grabbed, world_held. evaluate. same_world. Qed.

(** ** C6: what a grab does to the baseline *)




(** ** C2: the unset baseline *)

Lemma world_weightless_is :
  handle (EvInputSliderGravity 0) world_loaded = world_weightless.
Proof. unfold world_loaded, world_weightless. evaluate. same_world. Qed.

Lemma world_weightless_grabbed_is :
  handle press_on_ball world_weightless = world_weightless_grabbed.
Proof.
  cbn [handle press_on_ball]. rewrite startDrag_hit.
  - reflexivity.
  - rewrite grabDistance_on_ball; cbn; lra.
Qed.

Lemma world_weightless_held_is :
  handle (EvFrame 16) world_weightless_grabbed = world_weightless_held.
Proof. unfold world_weightless_grabbed, world_weightless_held. evaluate. same_world. Qed.

Lemma world_released_is :
  run [EvEndDrag; EvInputSliderGravity 9.8] world_weightless_held = world_released.
Proof. unfold world_weightless_held, world_released. evaluate. same_world. Qed.

Lemma weightless_grab_is : run weightless_grab world0 = world_released.
Proof.
  rewrite world0_is. unfold weightless_grab. cbn [run].
  rewrite world_weightless_is, world_weightless_grabbed_is, world_weightless_held_is.
  exact world_released_is.
Qed.

(** C2, as stated, fails: after [weightless_grab] the baseline holds the
    number 0 that the held frame stored, nobody is dragging, and the
    reading is 4.9; the guard of the lazy capture takes that zero for
    "no baseline" and the next frame captures again. *)
Lemma C2_zero_baseline_is_recaptured :
  let w := run weightless_grab world0 in
  reachable w
  /\ dragging w = false
  /\ initialTotalEnergy (state w) = 0
  /\ potentialEnergy (state w) + kineticEnergy (state w) = 4.9
  /\ lazyCaptureFires (state w) = true
  /\ initialTotalEnergy (state (handle (EvFrame 32) w)) = 4.9.
Proof.
  cbv zeta. split; [apply reachable_run, reach_init|].
  rewrite weightless_grab_is. unfold world_released.
  evaluate. repeat split; lra.
Qed.

(** C2, amended.  The baseline is unset exactly when its value is zero:
    the lazy capture fires if and only if [initialTotalEnergy] is 0 and
    potential plus kinetic energy is positive.  So, with nobody
    dragging, a reading of zero never captures and a baseline other
    than zero is never replaced, while a baseline equal to zero is
    captured afresh at the next positive reading. *)
Theorem C2_unset_is_the_value_zero :
  forall s : State,
    let e := potentialEnergy s + kineticEnergy s in
    let s' := fst (ledger false s) in
    (lazyCaptureFires s = true <-> initialTotalEnergy s = 0 /\ 0 < e)
    /\ (e = 0 -> initialTotalEnergy s' = initialTotalEnergy s)
    /\ (initialTotalEnergy s <> 0 -> initialTotalEnergy s' = initialTotalEnergy s)
    /\ (initialTotalEnergy s = 0 -> 0 < e -> initialTotalEnergy s' = e).
Proof.
  intro s. cbv zeta.
  assert (Hfire : lazyCaptureFires s = true
                  <-> initialTotalEnergy s = 0
                      /\ 0 < potentialEnergy s + kineticEnergy s).
  { unfold lazyCaptureFires.
    rewrite andb_true_iff, negb_true_iff, truthy_false_iff, gtb_true_iff.
    reflexivity. }
  split; [exact Hfire|].
  unfold ledger. cbn [fst].
  destruct (lazyCaptureFires s) eqn:E.
  - destruct (proj1 Hfire eq_refl) as [H0 Hpos].
    repeat split; intros; cbn [initialTotalEnergy set_initialTotalEnergy];
      try reflexivity; try lra; contradiction.
  - repeat split; intros; try reflexivity.
    assert (Habs : false = true) by (apply Hfire; auto).
    discriminate Habs.
Qed.

(** In [world_released] the zero baseline is captured afresh. *)
Lemma C2_unset_is_the_value_zero_witness :
  initialTotalEnergy (state world_released) = 0
  /\ 0 < potentialEnergy (state world_released) + kineticEnergy (state world_released)
  /\ initialTotalEnergy (fst (ledger false (state world_released)))
     = potentialEnergy (state world_released) + kineticEnergy (state world_released).
Proof.
  assert (H0 : initialTotalEnergy (state world_released) = 0) by reflexivity.
  assert (Hpos : 0 < potentialEnergy (state world_released)
                     + kineticEnergy (state world_released))
    by (unfold world_released; evaluate; lra).
  split; [exact H0|]. split; [exact Hpos|].
  exact (proj2 (proj2 (proj2 (C2_unset_is_the_value_zero (state world_released))))
               H0 Hpos).
Defined.

(** ** C8: reset *)

Lemma resetSimulation_reads (w : World) :
  resetSimulation w = resetSimulation (resetInputs w).
Proof. reflexivity. Qed.

Lemma resetInputs_resetSimulation (w : World) :
  resetInputs (resetSimulation w) = resetInputs w.
Proof.
  unfold resetInputs.
  assert (Hs : mass (state (resetSimulation w)) = mass (state w)
               /\ trackScale (state (resetSimulation w)) = trackScale (state w)
               /\ pixelsPerMeter (state (resetSimulation w)) = pixelsPerMeter (state w)).
  { unfold resetSimulation. cbv zeta. rewrite updateCharts_state.
    match goal with |- context [ledger ?d ?s] =>
      destruct (ledger_frame d s) as (_ & _ & _ & Hm & _ & _ & Hk & Hp) end.
    rewrite Hm, Hk, Hp. repeat split. }
  destruct Hs as (-> & -> & ->).
  unfold resetSimulation. cbv zeta.
  match goal with |- context [updateCharts ?u] =>
    destruct (updateCharts_flags u) as (_ & -> & -> & -> & ->);
    rewrite (updateCharts_dom u) end.
  reflexivity.
Qed.

Lemma resetSimulation_idempotent (w : World) :
  resetSimulation (resetSimulation w) = resetSimulation w.
Proof.
  rewrite (resetSimulation_reads (resetSimulation w)).
  rewrite resetInputs_resetSimulation.
  symmetry. apply resetSimulation_reads.
Qed.

Lemma resetSimulation_state (w : World) :
  let s0 := mkState (-100) (trackScale (state w) * -100 * -100) 0
                    (mass (state w)) (sliderGravity_value (dom w))
                    (if toggleFriction_checked (dom w)
                     then sliderFriction_value (dom w) else 0)
                    0 0 (trackScale (state w)) (pixelsPerMeter (state w)) in
  state (resetSimulation w) = fst (ledger (dragging w) s0).
Proof.
  cbv zeta. unfold resetSimulation. cbv zeta. rewrite updateCharts_state.
  reflexivity.
Qed.

(** C8, as stated, fails twice.  On the freshly loaded page a reset does
    not leave the baseline cleared: the [updateCharts] that ends it
    captures the starting potential energy 4.9.  And a reset while the
    ball is held leaves [dragging] set, so the controller is not Idle. *)
Lemma C8_reset_recaptures_and_keeps_dragging :
  initialTotalEnergy (state (resetSimulation world0)) = 4.9
  /\ truthy (initialTotalEnergy (state (resetSimulation world0))) = true
  /\ reachable (run [press_on_ball; EvFrame 16] world0)
  /\ dragging (resetSimulation (run [press_on_ball; EvFrame 16] world0)) = true
  /\ ~ Idle (resetSimulation (run [press_on_ball; EvFrame 16] world0)).
Proof.
  assert (H : initialTotalEnergy (state (resetSimulation world0)) = 4.9).
  { rewrite world0_is. unfold world_loaded. evaluate. lra. }
  split; [exact H|]. split; [apply truthy_true_iff; lra|].
  split; [apply reachable_run, reach_init|].
  rewrite world0_is. cbn [run]. rewrite world_grabbed_is, world_held_is.
  assert (Hd : dragging (resetSimulation world_held) = true).
  { unfold resetSimulation. cbv zeta.
    match goal with |- dragging (updateCharts ?u) = _ =>
      destruct (updateCharts_flags u) as (_ & -> & _) end.
    reflexivity. }
  split; [exact Hd|].
  intros [_ Hidle]. rewrite Hd in Hidle. discriminate.
Qed.

(** C8, amended.  [resetSimulation] is idempotent.  It puts the mass at
    [x = -100] on the track with zero velocity, clears [thermalEnergy]
    and [simRunning], takes gravity and friction from the page and
    leaves [dragging] as it was, so the controller is Idle afterwards
    exactly when nobody was dragging.  The baseline does not stay
    cleared: the [updateCharts] that ends the reset stores the starting
    potential energy when that is positive or when the ball is held,
    and leaves 0 when nobody is dragging and the starting potential
    energy is not positive.  So the baseline is 0 after a reset exactly
    when the starting potential energy is 0 with the ball held, or not
    positive with nobody dragging. *)
Theorem C8_reset_is_idempotent :
  forall w : World,
    let w1 := resetSimulation w in
    let pe0 := potentialEnergy (state w1) in
    resetSimulation w1 = w1
    /\ x (state w1) = -100
    /\ y (state w1) = trackScale (state w) * (-100) ^ 2
    /\ v (state w1) = 0
    /\ thermalEnergy (state w1) = 0
    /\ simRunning w1 = false
    /\ gravity (state w1) = sliderGravity_value (dom w)
    /\ friction (state w1)
       = (if toggleFriction_checked (dom w) then sliderFriction_value (dom w) else 0)
    /\ dragging w1 = dragging w
    /\ (Idle w1 <-> dragging w = false)
    /\ (0 < pe0 -> initialTotalEnergy (state w1) = pe0)
    /\ (dragging w = true -> initialTotalEnergy (state w1) = pe0)
    /\ (dragging w = false -> pe0 <= 0 -> initialTotalEnergy (state w1) = 0)
    /\ (initialTotalEnergy (state w1) = 0
        <-> (dragging w = true /\ pe0 = 0) \/ (dragging w = false /\ pe0 <= 0)).
Proof.
  intro w. cbv zeta.
  split; [apply resetSimulation_idempotent|].
  assert (Hflags : simRunning (resetSimulation w) = false
                   /\ dragging (resetSimulation w) = dragging w).
  { unfold resetSimulation. cbv zeta.
    match goal with |- context [updateCharts ?u] =>
      destruct (updateCharts_flags u) as (-> & -> & _) end.
    split; reflexivity. }
  destruct Hflags as [Hrun Hdrag].
  pose proof (resetSimulation_state w) as Hs. cbv zeta in Hs.
  set (s0 := mkState _ _ _ _ _ _ _ _ _ _) in Hs.
  destruct (ledger_frame (dragging w) s0) as (Hx & Hy & Hv & Hm & Hg & Hf & _).
  assert (Hpe : potentialEnergy (state (resetSimulation w)) = potentialEnergy s0).
  { unfold potentialEnergy. rewrite Hs, Hm, Hg, Hy. reflexivity. }
  assert (Hke : kineticEnergy s0 = 0).
  { unfold kineticEnergy, s0. cbn [v mass]. ring. }
  assert (Hfire : lazyCaptureFires s0 = true <-> 0 < potentialEnergy s0).
  { unfold lazyCaptureFires. rewrite Hke, andb_true_iff, gtb_true_iff.
    replace (truthy (initialTotalEnergy s0)) with false
      by (symmetry; apply truthy_false_iff; reflexivity).
    cbn [negb]. split; [intros [_ H]|intro H; split; auto]; lra. }
  (* the baseline the reset ends with, by cases *)
  assert (Hheld : dragging w = true ->
                  initialTotalEnergy (fst (ledger (dragging w) s0)) = potentialEnergy s0).
  { intros ->. unfold ledger. cbn [fst].
    destruct (lazyCaptureFires s0);
      cbn [initialTotalEnergy set_initialTotalEnergy set_thermalEnergy]; lra. }
  assert (Hfree : dragging w = false ->
                  initialTotalEnergy (fst (ledger (dragging w) s0))
                  = (if lazyCaptureFires s0 then potentialEnergy s0 else 0)).
  { intros ->. unfold ledger. cbn [fst].
    destruct (lazyCaptureFires s0);
      cbn [initialTotalEnergy set_initialTotalEnergy]; [lra | reflexivity]. }
  assert (Hpos : 0 < potentialEnergy s0 ->
                 initialTotalEnergy (fst (ledger (dragging w) s0)) = potentialEnergy s0).
  { intro H. destruct (dragging w) eqn:Ed; [apply Hheld; reflexivity|].
    rewrite Hfree by reflexivity.
    replace (lazyCaptureFires s0) with true by (symmetry; apply Hfire; exact H).
    reflexivity. }
  assert (Hnone : dragging w = false -> potentialEnergy s0 <= 0 ->
                  initialTotalEnergy (fst (ledger (dragging w) s0)) = 0).
  { intros Hd Hle. rewrite Hfree by exact Hd.
    destruct (lazyCaptureFires s0) eqn:E; [|reflexivity].
    assert (0 < potentialEnergy s0) by (apply Hfire; reflexivity). lra. }
  rewrite Hpe. rewrite !Hs.
  split; [rewrite Hx; reflexivity|].
  split; [rewrite Hy; unfold s0; cbn [y]; ring|].
  split; [rewrite Hv; reflexivity|].
  split.
  { unfold ledger. cbn [fst].
    destruct (lazyCaptureFires s0), (dragging w); reflexivity. }
  split; [exact Hrun|].
  split; [rewrite Hg; reflexivity|].
  split; [rewrite Hf; reflexivity|].
  split; [exact Hdrag|].
  split.
  { unfold Idle. rewrite Hrun, Hdrag. split; [intros [_ H]; exact H | auto]. }
  split; [exact Hpos|].
  split; [exact Hheld|].
  split; [exact Hnone|].
  split.
  - intro H0. destruct (dragging w) eqn:Ed.
    + left. split; [reflexivity|]. rewrite <- (Hheld eq_refl). exact H0.
    + right. split; [reflexivity|].
      destruct (Rle_lt_dec (potentialEnergy s0) 0) as [Hle|Hgt]; [exact Hle|].
      rewrite (Hpos Hgt) in H0. lra.
  - intros [[Hd H0] | [Hd Hle]].
    + rewrite (Hheld Hd). exact H0.
    + apply Hnone; assumption.
Qed.

(** A reset of the freshly loaded page leaves the controller Idle; a
    reset with the ball held stores the starting potential energy. *)
Lemma C8_reset_is_idempotent_witness :
  Idle (resetSimulation world_loaded)
  /\ initialTotalEnergy (state (resetSimulation world_held))
     = potentialEnergy (state (resetSimulation world_held)).
Proof.
  destruct (C8_reset_is_idempotent world_loaded)
    as (_ & _ & _ & _ & _ & _ & _ & _ & _ & Hidle & _).
  destruct (C8_reset_is_idempotent world_held)
    as (_ & _ & _ & _ & _ & _ & _ & _ & _ & _ & _ & Hheld & _).
  split.
  - apply Hidle. reflexivity.
  - apply Hheld. reflexivity.
Defined.

(** ** More on the ledger *)

Ltac unfold_ledger :=
  cbv beta iota zeta delta
    [updateCharts report ledger render lazyCaptureFires potentialEnergy kineticEnergy
     set_x set_y set_v set_gravity set_friction set_thermalEnergy
     set_initialTotalEnergy set_state set_dom set_dragging set_lastTime
     x y v mass gravity friction thermalEnergy initialTotalEnergy trackScale
     pixelsPerMeter state width height simRunning dragging lastTime dom
     toggleFriction_checked sliderFriction_value sliderGravity_value
     btnStartPause_textContent overlayInstruction_opacity
     pe ke thermal total maxE gtb ltb truthy fst snd andb negb].

Ltac no_test t :=
  lazymatch t with
  | context [Rlt_dec _ _] => fail
  | context [Req_dec_T _ _] => fail
  | _ => idtac
  end.

(** As [settle_tests], innermost tests first. *)
Ltac settle_inner :=
  repeat (cbv beta iota;
          match goal with
          | |- context [Rlt_dec ?a ?b] =>
              no_test a; no_test b;
              destruct (Rlt_dec a b); [ try (exfalso; lra) | try (exfalso; lra) ]
          | |- context [Req_dec_T ?a ?b] =>
              no_test a; no_test b;
              destruct (Req_dec_T a b); [ try (exfalso; lra) | try (exfalso; lra) ]
          end);
  cbv beta iota.

(** Running the ledger a second time with the same flag changes nothing,
    and neither does a run without dragging after one with. *)
Lemma ledger_again (d : bool) (s : State) :
  ledger d (fst (ledger d s)) = ledger d s
  /\ ledger false (fst (ledger true s)) = ledger true s.
Proof.
  destruct s as [x0 y0 v0 m g f te ie k ppm].
  split; [destruct d|]; unfold_ledger; settle_inner; reflexivity.
Qed.

Lemma render_again (r : EnergyReport) (d : Dom) : render r (render r d) = render r d.
Proof. reflexivity. Qed.

(** X1. [updateCharts] is idempotent: a second call right after the
    first leaves [state], the globals and the page as they are. *)
Theorem updateCharts_idempotent :
  forall w : World, updateCharts (updateCharts w) = updateCharts w.
Proof.
  intro w. unfold updateCharts at 1.
  destruct (updateCharts_flags w) as (_ & Hd & _).
  rewrite Hd, updateCharts_state.
  rewrite (proj1 (ledger_again (dragging w) (state w))).
  unfold updateCharts.
  destruct (ledger (dragging w) (state w)) as [s r]. reflexivity.
Qed.

(** ** What the handlers keep *)

Lemma updatePhysics_keeps (dt : R) (s : State) :
  mass (updatePhysics dt s) = mass s
  /\ gravity (updatePhysics dt s) = gravity s
  /\ friction (updatePhysics dt s) = friction s
  /\ thermalEnergy (updatePhysics dt s) = thermalEnergy s
  /\ initialTotalEnergy (updatePhysics dt s) = initialTotalEnergy s
  /\ trackScale (updatePhysics dt s) = trackScale s
  /\ pixelsPerMeter (updatePhysics dt s) = pixelsPerMeter s.
Proof. repeat split. Qed.

Lemma iter_updatePhysics_keeps (n : nat) (dt : R) (s : State) :
  let s' := Nat.iter n (updatePhysics dt) s in
  mass s' = mass s /\ gravity s' = gravity s /\ friction s' = friction s
  /\ thermalEnergy s' = thermalEnergy s
  /\ initialTotalEnergy s' = initialTotalEnergy s
  /\ trackScale s' = trackScale s /\ pixelsPerMeter s' = pixelsPerMeter s.
Proof.
  cbv zeta. induction n as [|n IH]; [repeat split|].
  rewrite Nat.iter_succ.
  destruct IH as (Hm & Hg & Hf & Ht & Hi & Hk & Hp).
  destruct (updatePhysics_keeps dt (Nat.iter n (updatePhysics dt) s))
    as (-> & -> & -> & -> & -> & -> & ->).
  repeat split; assumption.
Qed.

Lemma ledger_thermalEnergy (d : bool) (s : State) :
  thermalEnergy (fst (ledger d s)) = if d then 0 else thermalEnergy s.
Proof. unfold ledger; cbn [fst]. destruct (lazyCaptureFires s), d; reflexivity. Qed.

(** A frame is [updateCharts] on the world with the new [lastTime] and
    either the old [state] or the one ten sub-steps on. *)
Lemma loop_shape (timestamp : R) (w : World) :
  exists s : State,
    fst (loop timestamp w) = updateCharts (set_state s (set_lastTime timestamp w))
    /\ (s = state w
        \/ s = Nat.iter 10 (updatePhysics (frameDt timestamp w / INR 10)) (state w)).
Proof.
  unfold loop. cbv zeta.
  destruct (simRunning (set_lastTime timestamp w)
            && negb (dragging (set_lastTime timestamp w))).
  - rewrite subStepLoop_unfold. eexists. split; [reflexivity|]. right. reflexivity.
  - exists (state w). split; [reflexivity|]. left. reflexivity.
Qed.

Lemma updateCharts_page (u : World) :
  toggleFriction_checked (dom (updateCharts u)) = toggleFriction_checked (dom u)
  /\ sliderFriction_value (dom (updateCharts u)) = sliderFriction_value (dom u)
  /\ sliderGravity_value (dom (updateCharts u)) = sliderGravity_value (dom u)
  /\ btnStartPause_textContent (dom (updateCharts u)) = btnStartPause_textContent (dom u)
  /\ overlayInstruction_opacity (dom (updateCharts u)) = overlayInstruction_opacity (dom u).
Proof. rewrite updateCharts_dom. repeat split. Qed.

Lemma updateCharts_literalFields (u : World) :
  literalFields (state u) -> literalFields (state (updateCharts u)).
Proof.
  unfold literalFields. intros (Hm & Hk & Hp & Ht).
  rewrite updateCharts_state.
  destruct (ledger_frame (dragging u) (state u))
    as (_ & _ & _ & -> & _ & _ & -> & ->).
  rewrite ledger_thermalEnergy.
  repeat split; try assumption. destruct (dragging u); [reflexivity|assumption].
Qed.

Lemma updateCharts_controlsMirrored (u : World) :
  controlsMirrored u -> controlsMirrored (updateCharts u).
Proof.
  unfold controlsMirrored. intros [Hg Hf].
  destruct (updateCharts_page u) as (-> & -> & -> & _).
  rewrite updateCharts_state.
  destruct (ledger_frame (dragging u) (state u))
    as (_ & _ & _ & _ & -> & -> & _).
  split; assumption.
Qed.

Lemma updateCharts_labelMatches (u : World) :
  labelMatches u -> labelMatches (updateCharts u).
Proof.
  unfold labelMatches. intro H.
  destruct (updateCharts_page u) as (_ & _ & _ & -> & _).
  destruct (updateCharts_flags u) as (-> & _). exact H.
Qed.

Lemma startDrag_cases (e : PointerEvent) (rect : Rect) (w : World) :
  startDrag e rect w = w
  \/ startDrag e rect w
     = mkWorld (set_v 0 (state w)) (width w) (height w) false true (lastTime w)
               (set_overlayInstruction_opacity 0
                  (set_btnStartPause_textContent "Start" (dom w))).
Proof.
  destruct (Rlt_le_dec (grabDistance e rect w) 40) as [H|H].
  - right. now apply startDrag_hit.
  - left. now apply startDrag_miss.
Qed.

Lemma handle_literalFields (ev : Event) (w : World) :
  literalFields (state w) -> literalFields (state (handle ev w)).
Proof.
  intro H. destruct ev; cbn [handle]; try exact H.
  - destruct (loop_shape timestamp w) as (s & -> & Hs).
    apply updateCharts_literalFields. cbn [state set_state].
    destruct Hs as [->| ->]; [exact H|].
    unfold literalFields in *.
    destruct (iter_updatePhysics_keeps 10 (frameDt timestamp w / INR 10) (state w))
      as (-> & _ & _ & -> & _ & -> & ->).
    exact H.
  - destruct (startDrag_cases e rect w) as [-> | ->]; exact H.
  - unfold drag. destruct (negb (dragging w)); [exact H|]. cbv zeta.
    apply updateCharts_literalFields.
    unfold literalFields in *. destruct H as (Hm & Hk & Hp & _).
    repeat split; assumption.
  - rewrite clickStartPause_state. exact H.
  - unfold resetSimulation. cbv zeta. apply updateCharts_literalFields.
    unfold literalFields in *. destruct H as (Hm & Hk & Hp & _).
    repeat split; assumption.
Qed.

Lemma clickStartPause_page (w : World) :
  toggleFriction_checked (dom (clickStartPause w)) = toggleFriction_checked (dom w)
  /\ sliderFriction_value (dom (clickStartPause w)) = sliderFriction_value (dom w)
  /\ sliderGravity_value (dom (clickStartPause w)) = sliderGravity_value (dom w)
  /\ simRunning (clickStartPause w) = negb (simRunning w)
  /\ btnStartPause_textContent (dom (clickStartPause w))
     = (if negb (simRunning w) then "Pause" else "Start")%string.
Proof. destruct w as [s cw ch [|] d l dm]; repeat split. Qed.

Lemma handle_controlsMirrored (ev : Event) (w : World) :
  controlsMirrored w -> controlsMirrored (handle ev w).
Proof.
  intro H. destruct ev; cbn [handle]; try exact H.
  - destruct (loop_shape timestamp w) as (s & -> & Hs).
    apply updateCharts_controlsMirrored.
    unfold controlsMirrored in *. cbn [state dom set_state set_lastTime].
    destruct Hs as [->| ->]; [exact H|].
    destruct (iter_updatePhysics_keeps 10 (frameDt timestamp w / INR 10) (state w))
      as (_ & -> & -> & _).
    exact H.
  - destruct (startDrag_cases e rect w) as [-> | ->]; exact H.
  - unfold drag. destruct (negb (dragging w)); [exact H|]. cbv zeta.
    apply updateCharts_controlsMirrored. exact H.
  - unfold controlsMirrored in *. rewrite clickStartPause_state.
    destruct (clickStartPause_page w) as (-> & -> & -> & _). exact H.
  - unfold resetSimulation. cbv zeta. apply updateCharts_controlsMirrored.
    split; reflexivity.
  - split; [apply H | reflexivity].
  - split; [apply H | reflexivity].
  - split; [reflexivity | apply H].
Qed.

Lemma handle_labelMatches (ev : Event) (w : World) :
  labelMatches w -> labelMatches (handle ev w).
Proof.
  intro H. destruct ev; cbn [handle]; try exact H.
  - destruct (loop_shape timestamp w) as (s & -> & _).
    apply updateCharts_labelMatches. exact H.
  - destruct (startDrag_cases e rect w) as [-> | ->]; [exact H | reflexivity].
  - unfold drag. destruct (negb (dragging w)); [exact H|]. cbv zeta.
    apply updateCharts_labelMatches. exact H.
  - unfold labelMatches.
    destruct (clickStartPause_page w) as (_ & _ & _ & -> & ->). reflexivity.
  - unfold resetSimulation. cbv zeta. apply updateCharts_labelMatches. reflexivity.
Qed.

(** The literal's values survive every run (for use below). *)
Lemma reachable_keeps_literals (w : World) :
  reachable w ->
  mass (state w) = 1 /\ trackScale (state w) = 0.005
  /\ pixelsPerMeter (state w) = 100.
Proof.
  intro Hw.
  assert (H : literalFields (state w)).
  { induction Hw as [page cw ch | ev w Hw IH].
    - unfold script_init, resetSimulation. cbv zeta.
      apply updateCharts_literalFields. repeat split.
    - now apply handle_literalFields. }
  destruct H as (Hm & Hk & Hp & _). repeat split; assumption.
Qed.

(** X2. In every reachable world the fields of [state] that no handler
    assigns still hold the literal's values ([mass] 1, [trackScale]
    0.005, [pixelsPerMeter] 100), and [state.thermalEnergy] is 0: the
    thermal energy shown never comes from that field. *)
Theorem reachable_literalFields :
  forall w : World, reachable w -> literalFields (state w).
Proof.
  intros w Hw. induction Hw as [page cw ch | ev w Hw IH].
  - unfold script_init, resetSimulation. cbv zeta.
    apply updateCharts_literalFields. repeat split.
  - now apply handle_literalFields.
Qed.

Lemma reachable_literalFields_witness : literalFields (state world0).
Proof. apply reachable_literalFields. apply reach_init. Defined.

(** X3. In every reachable world [state.gravity] is the value of the
    gravity slider, and [state.friction] is the value of the friction
    slider when the checkbox is ticked and 0 when it is not. *)
Theorem reachable_controlsMirrored :
  forall w : World, reachable w -> controlsMirrored w.
Proof.
  intros w Hw. induction Hw as [page cw ch | ev w Hw IH].
  - unfold script_init, resetSimulation. cbv zeta.
    apply updateCharts_controlsMirrored. split; reflexivity.
  - now apply handle_controlsMirrored.
Qed.

Lemma reachable_controlsMirrored_witness : controlsMirrored world0.
Proof. apply reachable_controlsMirrored. apply reach_init. Defined.

(** X4. In every reachable world the start/pause button reads "Pause"
    exactly while [simRunning] is set, and "Start" otherwise. *)
Theorem reachable_labelMatches :
  forall w : World, reachable w -> labelMatches w.
Proof.
  intros w Hw. induction Hw as [page cw ch | ev w Hw IH].
  - unfold script_init, resetSimulation. cbv zeta.
    apply updateCharts_labelMatches. reflexivity.
  - now apply handle_labelMatches.
Qed.

Lemma reachable_labelMatches_witness : labelMatches world0.
Proof. apply reachable_labelMatches. apply reach_init. Defined.

(** ** More on the sub-step *)

Lemma root_ge_1 (a : R) : 1 <= sqrt (1 + a * a).
Proof.
  rewrite <- sqrt_1 at 1. apply sqrt_le_1_alt. nra.
Qed.



(** The cosine of the track angle, as line 120 computes it. *)
Lemma cosine_bounded (a : R) : 0 < 1 / sqrt (1 + a * a) <= 1.
Proof.
  pose proof (root_ge_1 a) as H1.
  set (q := sqrt (1 + a * a)) in *.
  assert (Hi : 0 < / q) by (apply Rinv_0_lt_compat; lra).
  split; [lra|].
  apply (Rmult_le_reg_r q); [lra|].
  unfold Rdiv. rewrite Rmult_assoc, Rinv_l by lra. lra.
Qed.

(** The sign of the sine is the sign of the slope. *)
Lemma sine_sign (a : R) :
  (a < 0 -> a / sqrt (1 + a * a) < 0) /\ (0 < a -> 0 < a / sqrt (1 + a * a)).
Proof.
  pose proof (root_ge_1 a) as H1.
  set (q := sqrt (1 + a * a)) in *.
  assert (Hi : 0 < / q) by (apply Rinv_0_lt_compat; lra).
  unfold Rdiv. split; intro H; nra.
Qed.

Ltac unfold_substep :=
  cbv beta iota zeta delta
    [updatePhysics updatePositionFromX gtb set_x set_y set_v
     x y v mass gravity friction thermalEnergy initialTotalEnergy
     trackScale pixelsPerMeter].



(** X6. Released at rest on a slope, the mass starts downhill: with
    positive curvature, gravity and step, from the left of the bottom
    the first sub-step gives a positive velocity and a larger [x], from
    the right a negative velocity and a smaller [x], friction or not. *)
Theorem substep_from_rest_goes_downhill :
  forall (dt : R) (s : State),
    v s = 0 -> 0 < trackScale s -> 0 < gravity s -> 0 < dt ->
    let s' := updatePhysics dt s in
    (x s < 0 -> 0 < v s' /\ x s < x s')
    /\ (0 < x s -> v s' < 0 /\ x s' < x s).
Proof.
  intros dt [x0 y0 v0 m g f te ie k ppm]. cbn [v trackScale gravity x].
  intros -> Hk Hg Hdt. unfold_substep.
  pose proof (sine_sign (2 * k * x0)) as [Hneg Hpos].
  pose proof (cosine_bounded (2 * k * x0)) as Hc.
  set (sn := 2 * k * x0 / sqrt (1 + 2 * k * x0 * (2 * k * x0))) in *.
  set (cs := 1 / sqrt (1 + 2 * k * x0 * (2 * k * x0))) in *.
  split; intro Hx.
  - assert (Hsn : sn < 0) by (apply Hneg; nra).
    assert (Ha : 0 < - (g * 20) * sn) by nra.
    destruct (Rlt_dec 0 f).
    + replace (- (g * 20) * sn + - f * 0) with (- (g * 20) * sn) by ring.
      split; [nra|]. assert (0 < (0 + - (g * 20) * sn * dt) * cs * dt); [|lra].
      apply Rmult_lt_0_compat; [|lra]. apply Rmult_lt_0_compat; [nra|lra].
    + split; [nra|]. assert (0 < (0 + - (g * 20) * sn * dt) * cs * dt); [|lra].
      apply Rmult_lt_0_compat; [|lra]. apply Rmult_lt_0_compat; [nra|lra].
  - assert (Hsn : 0 < sn) by (apply Hpos; nra).
    assert (Ha : 0 < (g * 20) * sn) by nra.
    destruct (Rlt_dec 0 f).
    + replace (- (g * 20) * sn + - f * 0) with (- (g * 20 * sn)) by ring.
      split; [nra|]. assert (0 < (g * 20 * sn * dt) * cs * dt); [|lra].
      apply Rmult_lt_0_compat; [|lra]. apply Rmult_lt_0_compat; [nra|lra].
    + split; [nra|]. assert (0 < (g * 20 * sn * dt) * cs * dt); [|lra].
      apply Rmult_lt_0_compat; [|lra]. apply Rmult_lt_0_compat; [nra|lra].
Qed.

Lemma substep_from_rest_goes_downhill_witness :
  0 < v (updatePhysics 0.01 (state world_loaded))
  /\ x (state world_loaded) < x (updatePhysics 0.01 (state world_loaded)).
Proof.
  apply (substep_from_rest_goes_downhill 0.01 (state world_loaded));
    cbn; try reflexivity; lra.
Defined.

(** ** More on frames *)

Lemma reachable_onTrack (w : World) : reachable w -> onTrack (state w).
Proof.
  intro Hw. induction Hw as [page cw ch | ev w Hw IH].
  - unfold script_init. cbv zeta. apply resetSimulation_onTrack.
  - now apply handle_onTrack.
Qed.

Lemma updatePhysics_zero (s : State) : onTrack s -> updatePhysics 0 s = s.
Proof.
  destruct s as [x0 y0 v0 m g f te ie k ppm]. unfold onTrack. cbn [x y trackScale].
  intros ->. unfold_substep.
  destruct (Rlt_dec 0 f); apply mkState_ext; ring.
Qed.

Lemma iter_updatePhysics_zero (n : nat) (s : State) :
  onTrack s -> Nat.iter n (updatePhysics 0) s = s.
Proof.
  intro Hs. induction n as [|n IH]; [reflexivity|].
  rewrite Nat.iter_succ, IH. now apply updatePhysics_zero.
Qed.

Lemma loop_lastTime (timestamp : R) (w : World) :
  lastTime (fst (loop timestamp w)) = timestamp.
Proof.
  destruct (loop_shape timestamp w) as (s & -> & _).
  match goal with |- lastTime (updateCharts ?u) = _ =>
    destruct (updateCharts_flags u) as (_ & _ & -> & _) end.
  reflexivity.
Qed.

(** X7. A frame with no previous frame on record ([lastTime] is 0), or
    with the time stamp of the previous one, moves nothing even while
    the simulation runs: it only stores the time stamp and refreshes
    the charts. *)
Theorem frame_without_elapsed_time :
  forall (timestamp : R) (w : World),
    lastTime w = 0 \/ timestamp = lastTime w ->
    onTrack (state w) ->
    frameDt timestamp w = 0
    /\ fst (loop timestamp w) = updateCharts (set_lastTime timestamp w).
Proof.
  intros timestamp w Hlast Htrack.
  assert (Hdt : frameDt timestamp w = 0).
  { rewrite frameDt_capped.
    assert (Hbase : (if truthy (lastTime w) then lastTime w else timestamp) = timestamp).
    { destruct Hlast as [H0| ->].
      - replace (truthy (lastTime w)) with false
          by (symmetry; apply truthy_false_iff; exact H0).
        reflexivity.
      - destruct (truthy (lastTime w)); reflexivity. }
    rewrite Hbase. rewrite Rmin_left; lra. }
  split; [exact Hdt|].
  destruct (loop_shape timestamp w) as (s & -> & [-> | ->]); [reflexivity|].
  rewrite Hdt. replace (0 / INR 10) with 0 by (unfold Rdiv; ring).
  rewrite iter_updatePhysics_zero by exact Htrack. reflexivity.
Qed.

Lemma frame_without_elapsed_time_witness :
  fst (loop 16 world_started) = updateCharts (set_lastTime 16 world_started).
Proof.
  apply (frame_without_elapsed_time 16 world_started).
  - left. reflexivity.
  - unfold onTrack, world_started. cbn. lra.
Defined.

(** X8. The elapsed time of a frame is measured from the time stamp of
    the frame before, capped at 0.1 s; only a previous frame stamped 0
    counts as no previous frame, and then the elapsed time is 0. *)
Theorem consecutive_frames_elapsed_time :
  forall (t1 t2 : R) (w : World),
    let w1 := fst (loop t1 w) in
    lastTime w1 = t1
    /\ (t1 <> 0 -> frameDt t2 w1 = Rmin ((t2 - t1) / 1000) 0.1)
    /\ (t1 = 0 -> frameDt t2 w1 = 0).
Proof.
  intros t1 t2 w. cbv zeta.
  pose proof (loop_lastTime t1 w) as Hl.
  split; [exact Hl|].
  rewrite frameDt_capped, Hl. split; intro H.
  - replace (truthy t1) with true by (symmetry; apply truthy_true_iff; exact H).
    reflexivity.
  - replace (truthy t1) with false by (symmetry; apply truthy_false_iff; exact H).
    replace ((t2 - t2) / 1000) with 0 by lra. rewrite Rmin_left; lra.
Qed.

Lemma consecutive_frames_elapsed_time_witness :
  frameDt 32 (fst (loop 16 world_started)) = Rmin ((32 - 16) / 1000) 0.1.
Proof.
  apply (consecutive_frames_elapsed_time 16 32 world_started). lra.
Defined.

(** ** The mass at rest at the bottom *)

Lemma updatePhysics_rest (dt : R) (s : State) :
  x s = 0 -> v s = 0 ->
  x (updatePhysics dt s) = 0 /\ v (updatePhysics dt s) = 0.
Proof.
  destruct s as [x0 y0 v0 m g f te ie k ppm]. cbn [x v]. intros -> ->.
  unfold_substep. destruct (Rlt_dec 0 f); split; unfold Rdiv; ring.
Qed.

Lemma iter_updatePhysics_rest (n : nat) (dt : R) (s : State) :
  x s = 0 -> v s = 0 ->
  x (Nat.iter n (updatePhysics dt) s) = 0 /\ v (Nat.iter n (updatePhysics dt) s) = 0.
Proof.
  intros Hx Hv. induction n as [|n [IHx IHv]]; [split; assumption|].
  rewrite Nat.iter_succ. now apply updatePhysics_rest.
Qed.

Lemma handle_rest (ev : Event) (w : World) :
  placesMass ev = false ->
  x (state w) = 0 -> v (state w) = 0 ->
  x (state (handle ev w)) = 0 /\ v (state (handle ev w)) = 0.
Proof.
  intros Hev Hx Hv. destruct ev; cbn [handle]; try discriminate Hev;
    try (split; assumption).
  - destruct (loop_shape timestamp w) as (s & -> & Hs).
    rewrite updateCharts_state. cbn [state set_state dragging set_lastTime].
    destruct (ledger_frame (dragging w) s) as (-> & _ & -> & _).
    destruct Hs as [-> | ->]; [split; assumption|].
    now apply iter_updatePhysics_rest.
  - destruct (startDrag_cases e rect w) as [-> | ->]; split; assumption || reflexivity.
  - rewrite clickStartPause_state. split; assumption.
Qed.

(** X9. A mass at rest at the bottom of the track stays there through
    any sequence of events that holds no pointer move and no reset:
    frames (running or not), presses, releases, the button, the sliders
    and the checkbox never set it in motion. *)
Theorem rest_at_bottom_is_kept :
  forall (evs : list Event) (w : World),
    forallb (fun ev => negb (placesMass ev)) evs = true ->
    x (state w) = 0 -> v (state w) = 0 ->
    x (state (run evs w)) = 0 /\ v (state (run evs w)) = 0.
Proof.
  induction evs as [|ev rest IH]; intros w Hevs Hx Hv; cbn [run].
  - split; assumption.
  - cbn [forallb] in Hevs. apply andb_true_iff in Hevs as [Hev Hrest].
    apply negb_true_iff in Hev.
    destruct (handle_rest ev w Hev Hx Hv) as [Hx' Hv'].
    now apply IH.
Qed.

Lemma rest_at_bottom_is_kept_witness :
  let w := mkWorld (mkState 0 0 0 1 9.8 0.1 0 0 0.005 100) 800 600 true false 16 page0 in
  x (state (run [EvFrame 32; EvInputSliderGravity 20; EvFrame 48] w)) = 0
  /\ v (state (run [EvFrame 32; EvInputSliderGravity 20; EvFrame 48] w)) = 0.
Proof.
  cbv zeta. apply rest_at_bottom_is_kept; reflexivity.
Defined.

(** ** Mirror images *)

Lemma updatePhysics_reflect (dt : R) (s : State) :
  updatePhysics dt (reflect s) = reflect (updatePhysics dt s).
Proof.
  destruct s as [x0 y0 v0 m g f te ie k ppm].
  cbv beta iota zeta delta
    [updatePhysics reflect updatePositionFromX gtb set_x set_y set_v
     x y v mass gravity friction thermalEnergy initialTotalEnergy
     trackScale pixelsPerMeter].
  replace (2 * k * - x0 * (2 * k * - x0))
    with (2 * k * x0 * (2 * k * x0)) by ring.
  destruct (Rlt_dec 0 f); apply mkState_ext;
    try reflexivity; unfold Rdiv; ring.
Qed.

Lemma iter_updatePhysics_reflect (n : nat) (dt : R) (s : State) :
  Nat.iter n (updatePhysics dt) (reflect s)
  = reflect (Nat.iter n (updatePhysics dt) s).
Proof.
  induction n as [|n IH]; [reflexivity|].
  rewrite !Nat.iter_succ, IH. apply updatePhysics_reflect.
Qed.

Lemma energy_reflect (s : State) :
  potentialEnergy (reflect s) = potentialEnergy s
  /\ kineticEnergy (reflect s) = kineticEnergy s.
Proof.
  split; [reflexivity|].
  unfold kineticEnergy, reflect. cbn [v mass set_v set_x]. ring.
Qed.

Lemma ledger_reflect (d : bool) (s : State) :
  ledger d (reflect s) = (reflect (fst (ledger d s)), snd (ledger d s)).
Proof.
  destruct (energy_reflect s) as [Hp Hk].
  assert (Hfire : lazyCaptureFires (reflect s) = lazyCaptureFires s).
  { unfold lazyCaptureFires. rewrite Hp, Hk. reflexivity. }
  unfold ledger. cbv zeta. rewrite Hfire, Hp, Hk.
  destruct (lazyCaptureFires s), d; reflexivity.
Qed.

Lemma updateCharts_reflect (w : World) :
  updateCharts (reflectWorld w) = reflectWorld (updateCharts w).
Proof.
  unfold updateCharts, reflectWorld. cbn [dragging state set_state dom].
  rewrite ledger_reflect. destruct (ledger (dragging w) (state w)). reflexivity.
Qed.

Lemma loop_eq (timestamp : R) (w : World) :
  loop timestamp w
  = (updateCharts
       (set_state (if Running w
                   then Nat.iter 10 (updatePhysics (frameDt timestamp w / INR 10))
                                 (state w)
                   else state w)
                  (set_lastTime timestamp w)),
     (if Running w
      then repeat (CallUpdatePhysics (frameDt timestamp w / INR 10)) 10
      else [])
     ++ [CallDraw; CallUpdateCharts; CallRequestAnimationFrame]).
Proof.
  unfold loop, Running. cbv zeta.
  replace (simRunning (set_lastTime timestamp w)
           && negb (dragging (set_lastTime timestamp w)))
    with (simRunning w && negb (dragging w)) by reflexivity.
  destruct (simRunning w && negb (dragging w)).
  - rewrite subStepLoop_unfold. reflexivity.
  - reflexivity.
Qed.

Lemma reflectWorld_reads (timestamp : R) (w : World) :
  Running (reflectWorld w) = Running w
  /\ frameDt timestamp (reflectWorld w) = frameDt timestamp w
  /\ state (reflectWorld w) = reflect (state w).
Proof. repeat split. Qed.

Lemma reflectWorld_set (s : State) (timestamp : R) (w : World) :
  set_state (reflect s) (set_lastTime timestamp (reflectWorld w))
  = reflectWorld (set_state s (set_lastTime timestamp w)).
Proof. reflexivity. Qed.

(** X10. A whole frame commutes with the reflection [(x, v) -> (-x, -v)]:
    from the mirror image of a world the frame makes the same calls,
    ends in the mirror image of the world it would have ended in, and
    so shows the same energies on the page. *)
Theorem frame_commutes_with_reflection :
  forall (timestamp : R) (w : World),
    fst (loop timestamp (reflectWorld w)) = reflectWorld (fst (loop timestamp w))
    /\ snd (loop timestamp (reflectWorld w)) = snd (loop timestamp w)
    /\ dom (fst (loop timestamp (reflectWorld w))) = dom (fst (loop timestamp w)).
Proof.
  intros timestamp w.
  assert (H : fst (loop timestamp (reflectWorld w))
              = reflectWorld (fst (loop timestamp w))
              /\ snd (loop timestamp (reflectWorld w)) = snd (loop timestamp w)).
  { rewrite !loop_eq. cbn [fst snd].
    destruct (reflectWorld_reads timestamp w) as (-> & -> & ->).
    split; [|reflexivity].
    destruct (Running w).
    - rewrite iter_updatePhysics_reflect.
      generalize (Nat.iter 10 (updatePhysics (frameDt timestamp w / INR 10)) (state w)).
      intro s. rewrite reflectWorld_set. apply updateCharts_reflect.
    - rewrite reflectWorld_set. apply updateCharts_reflect. }
  destruct H as [H1 H2]. split; [exact H1|]. split; [exact H2|].
  rewrite H1. reflexivity.
Qed.

(** ** The bars *)

Lemma share_bounds (a M : R) :
  0 <= a -> a <= M -> 0 < M -> 0 <= a / M * 100 <= 100.
Proof.
  intros Ha HaM HM.
  assert (Hi : 0 < / M) by now apply Rinv_0_lt_compat.
  assert (H1 : a * / M <= 1).
  { apply (Rmult_le_reg_r M); [exact HM|].
    rewrite Rmult_assoc, Rinv_l by lra. lra. }
  assert (H0 : 0 <= a * / M) by (apply Rmult_le_pos; lra).
  unfold Rdiv. lra.
Qed.

(** X11. With the gravity slider at a value that is not negative, each
    of the three energy bars of every reachable world is between 0 and
    100 percent wide: no bar is negative and none is wider than the
    full track. *)
Theorem bars_stay_in_range :
  forall w : World,
    reachable w -> 0 <= gravity (state w) ->
    let d := dom (updateCharts w) in
    0 <= barPotential_width d <= 100
    /\ 0 <= barKinetic_width d <= 100
    /\ 0 <= barThermal_width d <= 100.
Proof.
  intros w Hw Hg. cbv zeta.
  destruct (reachable_keeps_literals w Hw) as (Hm & Hk & _).
  pose proof (reachable_onTrack w Hw) as Hy. unfold onTrack in Hy.
  rewrite updateCharts_dom. cbn [render barPotential_width barKinetic_width barThermal_width].
  destruct (report_pe_ke w) as [Hpe Hke].
  assert (HP : 0 <= pe (report w)).
  { rewrite Hpe. unfold potentialEnergy, scaleE. rewrite Hm, Hy, Hk.
    pose proof (Rle_0_sqr (x (state w))) as Hsq. unfold Rsqr in Hsq. nra. }
  assert (HK : 0 <= ke (report w)).
  { rewrite Hke. unfold kineticEnergy, scaleE. rewrite Hm.
    pose proof (Rle_0_sqr (v (state w))) as Hsq. unfold Rsqr in Hsq. nra. }
  assert (HT : 0 <= thermal (report w)).
  { rewrite report_thermal. cbv zeta. destruct (truthy _); [apply Rmax_l | lra]. }
  pose proof (report_total w) as Htot.
  assert (HM : maxE (report w) = Rmax (total (report w)) 10) by reflexivity.
  pose proof (Rmax_l (total (report w)) 10) as HM1.
  pose proof (Rmax_r (total (report w)) 10) as HM2.
  rewrite <- HM in HM1, HM2.
  set (P := pe (report w)) in *. set (K := ke (report w)) in *.
  set (T := thermal (report w)) in *. set (M := maxE (report w)) in *.
  set (E := total (report w)) in *.
  split; [apply share_bounds; lra|].
  split; apply share_bounds; lra.
Qed.

Lemma bars_stay_in_range_witness :
  0 <= barPotential_width (dom (updateCharts world0)) <= 100.
Proof.
  assert (Hg : 0 <= gravity (state world0)) by (rewrite world0_is; cbn; lra).
  exact (proj1 (bars_stay_in_range world0 (reach_init page0 800 600) Hg)).
Defined.

(** ** Grab, drag, release *)

Lemma hypot_lt (a b c : R) :
  0 < c -> (Math_hypot a b < c <-> a * a + b * b < c * c).
Proof.
  intro Hc. unfold Math_hypot.
  assert (HS : 0 <= a * a + b * b) by nra.
  pose proof (sqrt_pos (a * a + b * b)) as Hq.
  pose proof (sqrt_sqrt _ HS) as Hqq.
  split; intro H.
  - rewrite <- Hqq. nra.
  - rewrite <- (sqrt_square c) by lra. apply sqrt_lt_1_alt. lra.
Qed.

(** X12. A press grabs the mass exactly when the squared distance from
    the pointer to the drawn ball centre is below 1600: then the page
    is Dragging with the simulation stopped, the velocity zero and the
    position untouched; at 1600 or more the press changes nothing. *)
Theorem press_grabs_within_forty_pixels :
  forall (e : PointerEvent) (rect : Rect) (w : World),
    let dx := clientX_of e - rect_left rect - (width w / 2 + x (state w)) in
    let dy := clientY_of e - rect_top rect - (height w - 50 - y (state w)) in
    (dx * dx + dy * dy < 1600 ->
     dragging (startDrag e rect w) = true
     /\ simRunning (startDrag e rect w) = false
     /\ v (state (startDrag e rect w)) = 0
     /\ x (state (startDrag e rect w)) = x (state w)
     /\ y (state (startDrag e rect w)) = y (state w))
    /\ (1600 <= dx * dx + dy * dy -> startDrag e rect w = w).
Proof.
  intros e rect w. cbv zeta.
  pose proof (hypot_lt (clientX_of e - rect_left rect - (width w / 2 + x (state w)))
                       (clientY_of e - rect_top rect - (height w - 50 - y (state w)))
                       40 ltac:(lra)) as H.
  fold (grabDistance e rect w) in H.
  replace (40 * 40) with 1600 in H by lra.
  split; intro Hd.
  - rewrite startDrag_hit by (apply H; exact Hd). repeat split.
  - apply startDrag_miss.
    destruct (Rlt_le_dec (grabDistance e rect w) 40) as [Hlt|Hle]; [|exact Hle].
    apply H in Hlt. lra.
Qed.

Lemma press_grabs_within_forty_pixels_witness :
  dragging (startDrag (MouseEvent 310 505) (mkRect 0 0) world_loaded) = true.
Proof.
  apply (press_grabs_within_forty_pixels (MouseEvent 310 505) (mkRect 0 0) world_loaded).
  cbn. lra.
Defined.

Lemma ledger_dragging (s : State) :
  let e := potentialEnergy s + kineticEnergy s in
  x (fst (ledger true s)) = x s /\ y (fst (ledger true s)) = y s
  /\ v (fst (ledger true s)) = v s
  /\ initialTotalEnergy (fst (ledger true s)) = e
  /\ pe (snd (ledger true s)) + ke (snd (ledger true s)) = e
  /\ thermal (snd (ledger true s)) = 0.
Proof.
  cbv zeta. unfold ledger. cbn [fst snd pe ke thermal].
  destruct (lazyCaptureFires s);
    cbn [x y v initialTotalEnergy set_thermalEnergy set_initialTotalEnergy];
    (repeat split);
    destruct (truthy _); try reflexivity;
    destruct (ltb _ 0); try reflexivity; ring.
Qed.

(** X13. Drag, release, one frame: when the held mass is moved and then
    released while the simulation is stopped, the next frame leaves the
    mass under the pointer on the track, takes the potential plus
    kinetic energy there as the baseline, and shows no thermal energy. *)
Theorem drag_release_rebases_the_ledger :
  forall (e : PointerEvent) (rect : Rect) (timestamp : R) (u : World),
    dragging u = true -> simRunning u = false ->
    let u2 := fst (loop timestamp (endDrag (drag e rect u))) in
    x (state u2) = clientX_of e - rect_left rect - width u / 2
    /\ y (state u2) = trackScale (state u) * x (state u2) * x (state u2)
    /\ v (state u2) = v (state u)
    /\ initialTotalEnergy (state u2)
       = potentialEnergy (state u2) + kineticEnergy (state u2)
    /\ dragging u2 = false
    /\ barThermal_width (dom u2) = 0.
Proof.
  intros e rect timestamp u Hd Hr. cbv zeta.
  unfold drag. rewrite Hd. cbn [negb]. cbv zeta.
  set (sd := set_initialTotalEnergy 0
               (set_thermalEnergy 0
                  (updatePositionFromX
                     (set_x (clientX_of e - rect_left rect - width u / 2) (state u))))).
  set (u1 := updateCharts (set_state sd u)).
  destruct (updateCharts_flags (set_state sd u)) as (Hr1 & Hd1 & _).
  fold u1 in Hr1, Hd1. cbn [simRunning dragging set_state] in Hr1, Hd1.
  assert (Hs1 : state u1 = fst (ledger true sd)).
  { unfold u1. rewrite updateCharts_state. cbn [dragging state set_state].
    rewrite Hd. reflexivity. }
  assert (Hrun : Running (endDrag u1) = false).
  { unfold Running, endDrag. cbn [simRunning dragging set_dragging].
    rewrite Hr1, Hr. reflexivity. }
  rewrite loop_eq. cbn [fst]. rewrite Hrun.
  set (u' := set_state (state (endDrag u1)) (set_lastTime timestamp (endDrag u1))).
  assert (Hl : ledger (dragging u') (state u') = ledger true sd).
  { unfold u', endDrag. cbn [dragging state set_state set_lastTime set_dragging].
    rewrite Hs1. apply (proj2 (ledger_again true sd)). }
  assert (Hs2 : state (updateCharts u') = fst (ledger true sd)).
  { rewrite updateCharts_state, Hl. reflexivity. }
  assert (Hrep : report u' = snd (ledger true sd)).
  { unfold report. rewrite Hl. reflexivity. }
  destruct (ledger_dragging sd) as (Hx & Hy & Hv & Hi & _ & Ht).
  destruct (ledger_frame true sd) as (_ & _ & _ & Hm & Hg & _).
  rewrite !Hs2.
  split; [rewrite Hx; reflexivity|].
  split; [rewrite Hx, Hy; reflexivity|].
  split; [rewrite Hv; reflexivity|].
  split.
  { rewrite Hi. unfold potentialEnergy, kineticEnergy.
    rewrite Hy, Hv, Hm, Hg. reflexivity. }
  split.
  { destruct (updateCharts_flags u') as (_ & -> & _). reflexivity. }
  rewrite updateCharts_dom, Hrep. cbn [render barThermal_width].
  rewrite Ht. unfold Rdiv. ring.
Qed.

Lemma drag_release_rebases_the_ledger_witness :
  barThermal_width
    (dom (fst (loop 32 (endDrag (drag (MouseEvent 500 0) (mkRect 0 0) world_held)))))
  = 0.
Proof.
  apply (drag_release_rebases_the_ledger
           (MouseEvent 500 0) (mkRect 0 0) 32 world_held); reflexivity.
Defined.

(** ** Reset *)

Lemma resetSimulation_dom (w : World) :
  let s0 := mkState (-100) (trackScale (state w) * -100 * -100) 0
                    (mass (state w)) (sliderGravity_value (dom w))
                    (if toggleFriction_checked (dom w)
                     then sliderFriction_value (dom w) else 0)
                    0 0 (trackScale (state w)) (pixelsPerMeter (state w)) in
  dom (resetSimulation w)
  = render (snd (ledger (dragging w) s0))
           (set_overlayInstruction_opacity 1
              (set_btnStartPause_textContent "Start" (dom w))).
Proof.
  cbv zeta. unfold resetSimulation. cbv zeta. rewrite updateCharts_dom.
  reflexivity.
Qed.

(** X14. A reset forgets what went before: from any two reachable worlds
    whose three controls agree and which are both dragging or both not,
    [resetSimulation] yields the same [state] and the same bars and
    read-outs. *)
Theorem reset_forgets_the_past :
  forall w1 w2 : World,
    reachable w1 -> reachable w2 ->
    toggleFriction_checked (dom w1) = toggleFriction_checked (dom w2) ->
    sliderFriction_value (dom w1) = sliderFriction_value (dom w2) ->
    sliderGravity_value (dom w1) = sliderGravity_value (dom w2) ->
    dragging w1 = dragging w2 ->
    let d1 := dom (resetSimulation w1) in
    let d2 := dom (resetSimulation w2) in
    state (resetSimulation w1) = state (resetSimulation w2)
    /\ barPotential_width d1 = barPotential_width d2
    /\ barKinetic_width d1 = barKinetic_width d2
    /\ barThermal_width d1 = barThermal_width d2
    /\ valPotential_textContent d1 = valPotential_textContent d2
    /\ valKinetic_textContent d1 = valKinetic_textContent d2
    /\ valThermal_textContent d1 = valThermal_textContent d2
    /\ valTotal_textContent d1 = valTotal_textContent d2.
Proof.
  intros w1 w2 H1 H2 Hc Hf Hg Hd. cbv zeta.
  destruct (reachable_keeps_literals w1 H1) as (Hm1 & Hk1 & Hp1).
  destruct (reachable_keeps_literals w2 H2) as (Hm2 & Hk2 & Hp2).
  pose proof (resetSimulation_state w1) as Hs1.
  pose proof (resetSimulation_state w2) as Hs2.
  pose proof (resetSimulation_dom w1) as Hd1.
  pose proof (resetSimulation_dom w2) as Hd2.
  cbv zeta in Hs1, Hs2, Hd1, Hd2.
  rewrite Hm1, Hk1, Hp1, Hc, Hf, Hg, Hd in *.
  rewrite Hm2, Hk2, Hp2 in *.
  rewrite Hs1, Hs2, Hd1, Hd2.
  repeat split.
Qed.

Lemma reset_forgets_the_past_witness :
  state (resetSimulation world_loaded) = state (resetSimulation world_started).
Proof.
  assert (H1 : reachable world_loaded) by (rewrite <- world0_is; apply reach_init).
  assert (H2 : reachable world_started)
    by (rewrite <- world_started_is; apply reach_step; exact H1).
  exact (proj1 (reset_forgets_the_past world_loaded world_started H1 H2
                  eq_refl eq_refl eq_refl eq_refl)).
Defined.

(** ** Drawing *)

Lemma trackLoop_enough (W k cx by_ : R) (fuel : nat) :
  forall (extra : nat) (ix : R),
    W / 2 - ix <= 5 * INR fuel ->
    trackLoop (fuel + extra) W k cx by_ ix = trackLoop fuel W k cx by_ ix.
Proof.
  induction fuel as [|fuel IH]; intros extra ix Hfuel.
  - cbn [INR] in Hfuel. destruct extra as [|extra]; [reflexivity|].
    cbn [Nat.add trackLoop].
    replace (ltb ix (W / 2)) with false; [reflexivity|].
    symmetry. apply ltb_false_iff. lra.
  - rewrite S_INR in Hfuel. cbn [Nat.add trackLoop].
    rewrite (IH extra (ix + 5)) by lra. reflexivity.
Qed.

Lemma trackFuel_enough (W : R) : W / 2 - - W / 2 <= 5 * INR (trackFuel W).
Proof.
  unfold trackFuel.
  destruct (archimed (W / 5)) as [Hup _].
  destruct (Z_lt_le_dec (up (W / 5)) 0) as [Hneg|Hpos].
  - apply IZR_lt in Hneg.
    pose proof (pos_INR (Z.to_nat (up (W / 5)))) as Hn. lra.
  - rewrite INR_IZR_INZ, Z2Nat.id by exact Hpos. lra.
Qed.

(** X15. The track loop of [draw] has finished after [up (width / 5)]
    rounds: allowing it any number of further rounds yields the same
    drawing, and it sends at most that many path operations. *)
Theorem draw_loop_terminates :
  forall (w : World) (extra : nat),
    drawWith (trackFuel (width w) + extra) w = draw w
    /\ (List.length (draw w) <= 13 + trackFuel (width w))%nat.
Proof.
  intros w extra. split.
  - unfold draw, drawWith. cbv zeta.
    rewrite trackLoop_enough by apply trackFuel_enough. reflexivity.
  - unfold draw, drawWith. cbv zeta.
    rewrite !List.length_app. cbn [List.length].
    assert (H : forall fuel W k cx by_ ix,
               (List.length (trackLoop fuel W k cx by_ ix) <= fuel)%nat).
    { induction fuel as [|fuel IH]; intros W k cx by_ ix; cbn [trackLoop]; [auto|].
      destruct (ltb ix (W / 2)); [|cbn; apply Nat.le_0_l].
      cbv zeta.
      specialize (IH W k cx by_ (ix + 5)).
      destruct (ltb _ 0); [|destruct (Req_dec_T _ _)]; cbn [List.length];
        auto using le_n_S, Nat.le_le_succ_r. }
    specialize (H (trackFuel (width w)) (width w) (trackScale (state w))
                  (width w / 2) (height w - 50) (- width w / 2)).
    lia.
Qed.

Lemma trackLoop_points (W k cx by_ : R) (fuel : nat) :
  forall (ix : R) (op : CanvasOp),
    - W / 2 <= ix ->
    In op (trackLoop fuel W k cx by_ ix) ->
    exists jx : R,
      - W / 2 <= jx < W / 2
      /\ 0 <= by_ - k * jx * jx
      /\ ((op = MoveTo (cx + jx) (by_ - k * jx * jx) /\ jx = - W / 2)
          \/ op = LineTo (cx + jx) (by_ - k * jx * jx)).
Proof.
  induction fuel as [|fuel IH]; intros ix op Hix Hin; cbn [trackLoop] in Hin.
  - contradiction.
  - destruct (ltb ix (W / 2)) eqn:Hlt; [|contradiction].
    apply ltb_true_iff in Hlt. cbv zeta in Hin.
    assert (Hrest : In op (trackLoop fuel W k cx by_ (ix + 5)) ->
                    exists jx : R,
                      - W / 2 <= jx < W / 2
                      /\ 0 <= by_ - k * jx * jx
                      /\ ((op = MoveTo (cx + jx) (by_ - k * jx * jx) /\ jx = - W / 2)
                          \/ op = LineTo (cx + jx) (by_ - k * jx * jx)))
      by (apply IH; lra).
    destruct (ltb (by_ - k * ix * ix) 0) eqn:Hskip; [now apply Hrest|].
    apply ltb_false_iff in Hskip.
    destruct (Req_dec_T ix (- W / 2)) as [Heq|Hne];
      (destruct Hin as [<- | Hin]; [|now apply Hrest]);
      exists ix; (split; [lra|]); (split; [exact Hskip|]).
    + left. split; [reflexivity | exact Heq].
    + right. reflexivity.
Qed.

(** X16. Every point of the track that [draw] sends to the canvas lies on
    the canvas horizontally, not above its top edge, and on the parabola
    [trackScale * x^2] measured up from 50 pixels above the bottom,
    around the middle; the only point ever reached by a [moveTo] is the
    one on the left edge. *)
Theorem drawn_track_points :
  forall (w : World) (op : CanvasOp) (px py : R),
    In op (draw w) ->
    pathPoint op = Some (px, py) ->
    0 <= px < width w
    /\ 0 <= py
    /\ py = height w - 50
            - trackScale (state w) * (px - width w / 2) * (px - width w / 2)
    /\ (op = MoveTo px py -> px = 0).
Proof.
  intros w op px py Hin Hpt.
  unfold draw, drawWith in Hin. cbv zeta in Hin.
  apply in_app_or in Hin as [Hin|Hin].
  { cbn [In] in Hin.
    repeat (destruct Hin as [<- | Hin]; [discriminate Hpt|]). contradiction. }
  apply in_app_or in Hin as [Hin|Hin].
  2:{ cbn [In] in Hin.
      repeat (destruct Hin as [<- | Hin]; [discriminate Hpt|]). contradiction. }
  apply trackLoop_points in Hin; [|lra].
  destruct Hin as (jx & Hjx & Hvis & [[-> Hleft] | ->]);
    cbn [pathPoint] in Hpt; injection Hpt as <- <-.
  - split; [lra|]. split; [exact Hvis|].
    split; [f_equal; ring|]. intros _. lra.
  - split; [lra|]. split; [exact Hvis|].
    split; [f_equal; ring|]. intro H. discriminate H.
Qed.

Lemma trackFuel_10 : exists n : nat, trackFuel 10 = S n.
Proof.
  unfold trackFuel.
  destruct (archimed (10 / 5)) as [H1 H2].
  assert (Hz : (0 < up (10 / 5))%Z) by (apply lt_IZR; lra).
  destruct (Z.to_nat (up (10 / 5))) eqn:E; [|eauto].
  apply (f_equal Z.of_nat) in E.
  rewrite Z2Nat.id in E by (apply Z.lt_le_incl; exact Hz).
  cbn in E. rewrite E in Hz. inversion Hz.
Qed.

Lemma draw_world_narrow : In (MoveTo 0 549.875) (draw world_narrow).
Proof.
  unfold draw, drawWith, world_narrow. cbv zeta.
  apply in_or_app. right. apply in_or_app. left.
  cbn [width height state trackScale].
  destruct trackFuel_10 as [n ->]. cbn [trackLoop].
  unfold ltb. settle_tests.
  cbn [In]. left. f_equal; lra.
Qed.

(** On a canvas 10 pixels wide the path starts on the left edge. *)
Lemma drawn_track_points_witness :
  0 <= 0 < width world_narrow /\ 0 <= 549.875.
Proof.
  destruct (drawn_track_points world_narrow (MoveTo 0 549.875) 0 549.875
              draw_world_narrow eq_refl) as (H1 & H2 & _).
  split; assumption.
Defined.


